(** * Intent classification and follow-up generation: a shallow embedding

    This development embeds the classifiers of [intent_classifier.py] and
    [ai_intent_classifier.py] and the follow-up generator of
    [chain_query_generator.py], and proves properties of them.

    Modelling conventions.
    - A Python [str] is a [string]; a character [ascii] stands for the
      Unicode code point of the same number, so the development covers the
      strings whose code points are below 256.  The character tables
      ([isspace], [lower], the classes [\w] and [\d]) are those of Python
      on that range.
    - The patterns of [re] are terms of the type [regex], matched by a
      backtracking matcher that tries the alternatives in the order of
      [re].
    - A Python [float] is a rational number [Q] with exact arithmetic:
      rounding, overflow and the special values are not modelled.
    - [json.loads] is a parameter of the definitions that call it.
    - The text-generation backend is an effect: a program that may call it
      is a tree of type [Prog], whose nodes are the calls of
      [LMStudioClient.chat_completion]; exceptions are explicit.
    - Logging calls are left out. *)

From Stdlib Require Import String Ascii List Bool Arith ZArith QArith Lia.
Import ListNotations.
Open Scope string_scope.
Open Scope list_scope.

(** ** Python string operations *)

Module PyStr.

(** The double quote character, and the line feed. *)
Definition dq_char : ascii := ascii_of_nat 34.
Definition dq : string := String dq_char EmptyString.
Definition nl_char : ascii := ascii_of_nat 10.
Definition nl : string := String nl_char EmptyString.

Definition code (c : ascii) : N := N_of_ascii c.

Definition between (lo hi : N) (c : ascii) : bool :=
  (N.leb lo (code c) && N.leb (code c) hi)%bool.

(** [str.isspace] on one character. *)
Definition isspace (c : ascii) : bool :=
  (between 9 13 c || between 28 32 c
   || N.eqb (code c) 133 || N.eqb (code c) 160)%bool.

(** Characters that [str.lower] changes. *)
Definition isupper (c : ascii) : bool :=
  (between 65 90 c || between 192 214 c || between 216 222 c)%bool.

Definition lower_char (c : ascii) : ascii :=
  if isupper c then ascii_of_N (code c + 32) else c.

Definition upper_char (c : ascii) : ascii :=
  if between 97 122 c then ascii_of_N (code c - 32) else c.

Fixpoint map_str (f : ascii -> ascii) (s : string) : string :=
  match s with
  | EmptyString => EmptyString
  | String c s' => String (f c) (map_str f s')
  end.

(** [s.lower()] and [s.upper()] (the latter on ASCII letters, which is
    all the source applies it to). *)
Definition lower : string -> string := map_str lower_char.
Definition upper : string -> string := map_str upper_char.

Definition is_empty (s : string) : bool :=
  match s with EmptyString => true | _ => false end.

Fixpoint lstrip_by (p : ascii -> bool) (s : string) : string :=
  match s with
  | EmptyString => EmptyString
  | String c s' => if p c then lstrip_by p s' else s
  end.

Fixpoint rstrip_by (p : ascii -> bool) (s : string) : string :=
  match s with
  | EmptyString => EmptyString
  | String c s' =>
      let r := rstrip_by p s' in
      if (is_empty r && p c)%bool then EmptyString else String c r
  end.

Definition strip_by (p : ascii -> bool) (s : string) : string :=
  rstrip_by p (lstrip_by p s).

(** [s.strip()]. *)
Definition strip : string -> string := strip_by isspace.

(** [not message or not message.strip()] *)
Definition blank (message : string) : bool :=
  (is_empty message || is_empty (strip message))%bool.

(** A set of characters given by code points, as the argument of
    [s.strip(chars)]. *)
Definition in_chars (cs : list N) (c : ascii) : bool :=
  existsb (N.eqb (code c)) cs.

Definition chars_of (s : string) : list N :=
  map code (list_ascii_of_string s).

(** [s.strip(chars)]. *)
Definition strip_chars (cs : list N) : string -> string :=
  strip_by (in_chars cs).

(** [s.split(sep)] for a one-character separator. *)
Fixpoint split_on (sep : ascii) (s : string) : list string :=
  match s with
  | EmptyString => [EmptyString]
  | String c s' =>
      if Ascii.eqb c sep then EmptyString :: split_on sep s'
      else match split_on sep s' with
           | h :: t => String c h :: t
           | [] => [String c EmptyString]
           end
  end.

(** [s.split(sep, 1)[1]]: the text after the first separator, when there
    is one. *)
Fixpoint after_first (sep : ascii) (s : string) : option string :=
  match s with
  | EmptyString => None
  | String c s' => if Ascii.eqb c sep then Some s' else after_first sep s'
  end.

(** [c in s] for a character. *)
Fixpoint has_char (c : ascii) (s : string) : bool :=
  match s with
  | EmptyString => false
  | String x s' => (Ascii.eqb x c || has_char c s')%bool
  end.

(** [s.startswith(p)]. *)
Definition startswith (p s : string) : bool := String.prefix p s.

(** [sub in s] for strings. *)
Fixpoint contains (sub s : string) : bool :=
  (startswith sub s ||
   match s with
   | EmptyString => false
   | String _ s' => contains sub s'
   end)%bool.

(** [s.endswith(c)] for a character. *)
Fixpoint ends_with_char (c : ascii) (s : string) : bool :=
  match s with
  | EmptyString => false
  | String x EmptyString => Ascii.eqb x c
  | String _ s' => ends_with_char c s'
  end.

(** [s[:n]]. *)
Fixpoint take (n : nat) (s : string) : string :=
  match n, s with
  | S n', String c s' => String c (take n' s')
  | _, _ => EmptyString
  end.

(** [sep.join(l)]. *)
Definition join (sep : string) (l : list string) : string :=
  String.concat sep l.

(** Every character of a string satisfies a test. *)
Fixpoint all_str (p : ascii -> bool) (s : string) : bool :=
  match s with
  | EmptyString => true
  | String c s' => (p c && all_str p s')%bool
  end.

Definition last_char (s : string) : option ascii :=
  match s with
  | EmptyString => None
  | String c s' =>
      Some ((fix go (x : ascii) (t : string) : ascii :=
               match t with
               | EmptyString => x
               | String y t' => go y t'
               end) c s')
  end.

(** The pieces of [s] between the characters that satisfy [sep], the
    empty pieces left out. *)
Fixpoint split_by (sep : ascii -> bool) (s : string) : list string :=
  match s with
  | EmptyString => []
  | String c s' =>
      if sep c then split_by sep s'
      else
        match s' with
        | EmptyString => [String c EmptyString]
        | String c' _ =>
            if sep c' then String c EmptyString :: split_by sep s'
            else
              match split_by sep s' with
              | h :: t => String c h :: t
              | [] => [String c EmptyString]
              end
        end
  end.

(** The longest beginning of [s] whose characters satisfy [p]. *)
Fixpoint take_while (p : ascii -> bool) (s : string) : string :=
  match s with
  | EmptyString => EmptyString
  | String c s' => if p c then String c (take_while p s') else EmptyString
  end.

(** [s.split()]: the words of [s], separated by white space. *)
Definition split_ws : string -> list string := split_by isspace.

(** A text that is not empty and that stripping on the left, or on the
    right, leaves alone. *)
Definition lfixed (p : ascii -> bool) (s : string) : Prop :=
  s <> EmptyString /\ lstrip_by p s = s.

Definition rfixed (p : ascii -> bool) (s : string) : Prop :=
  s <> EmptyString /\ rstrip_by p s = s.

End PyStr.

(** ** Regular expressions, as [re] matches them *)

Module Regex.
Import PyStr.

Inductive regex : Type :=
| Eps
| Lit (c : ascii)
| Cls (negated : bool) (cs : list ascii)
| WordChar
| Digit
| Seq (a b : regex)
| Alt (a b : regex)
| Star (a : regex)
| WordB
| Bol
| Eol.

(** [a+] and [a?], both greedy. *)
Definition Plus (a : regex) : regex := Seq a (Star a).
Definition Opt (a : regex) : regex := Alt a Eps.

(** The class [\w]. *)
Definition is_word (c : ascii) : bool :=
  (between 48 57 c || between 65 90 c || N.eqb (code c) 95
   || between 97 122 c
   || N.eqb (code c) 170 || between 178 179 c || N.eqb (code c) 181
   || between 185 186 c || between 188 190 c
   || between 192 214 c || between 216 246 c || between 248 255 c)%bool.

(** The class [\d]. *)
Definition is_digit (c : ascii) : bool := between 48 57 c.

(** Equality of characters, under [re.IGNORECASE] when [ic] is set. *)
Definition char_eq (ic : bool) (x c : ascii) : bool :=
  if ic then Ascii.eqb (lower_char x) (lower_char c) else Ascii.eqb x c.

Definition is_word_opt (o : option ascii) : bool :=
  match o with Some c => is_word c | None => false end.

Definition next_char (s : string) : option ascii :=
  match s with EmptyString => None | String c _ => Some c end.

Definition one (p : ascii -> bool) {A : Type} (rest : string)
    (k : option ascii -> string -> option A) : option A :=
  match rest with
  | String x s' => if p x then k (Some x) s' else None
  | EmptyString => None
  end.

(** Backtracking match of [r] at a position of the subject: [prev] is the
    character before the position and [rest] the text from it on.  The
    continuation [k] receives the position after the match; the
    alternatives are tried in the order of [re]: the left branch of an
    alternation first, a repetition as long as possible first. *)
Fixpoint rmatch {A : Type} (ic : bool) (r : regex) (prev : option ascii)
    (rest : string) (k : option ascii -> string -> option A) : option A :=
  match r with
  | Eps => k prev rest
  | Lit c => one (fun x => char_eq ic x c) rest k
  | Cls neg cs =>
      one (fun x => xorb neg (existsb (char_eq ic x) cs)) rest k
  | WordChar => one is_word rest k
  | Digit => one is_digit rest k
  | Seq a b => rmatch ic a prev rest (fun p s => rmatch ic b p s k)
  | Alt a b =>
      match rmatch ic a prev rest k with
      | Some x => Some x
      | None => rmatch ic b prev rest k
      end
  | Star a =>
      (fix loop (fuel : nat) (p : option ascii) (s : string)
           {struct fuel} : option A :=
         match fuel with
         | O => k p s
         | S f =>
             match rmatch ic a p s
                     (fun p' s' =>
                        if Nat.ltb (String.length s') (String.length s)
                        then loop f p' s' else None) with
             | Some x => Some x
             | None => k p s
             end
         end) (S (String.length rest)) prev rest
  | WordB =>
      if xorb (is_word_opt prev) (is_word_opt (next_char rest))
      then k prev rest else None
  | Bol => match prev with None => k prev rest | Some _ => None end
  | Eol =>
      if (is_empty rest || String.eqb rest nl)%bool
      then k prev rest else None
  end.

(** The first match at or after a position: the text from the start of
    the match, and the text after its end. *)
Fixpoint search_from (ic : bool) (r : regex) (prev : option ascii)
    (s : string) : option (string * string) :=
  match rmatch ic r prev s (fun _ e => Some e) with
  | Some e => Some (s, e)
  | None =>
      match s with
      | EmptyString => None
      | String c s' => search_from ic r (Some c) s'
      end
  end.

Definition matched_text (m : string * string) : string :=
  take (String.length (fst m) - String.length (snd m)) (fst m).

(** [pattern.search(s)]: the text of the first match ([group(0)]). *)
Definition search (ic : bool) (r : regex) (s : string) : option string :=
  option_map matched_text (search_from ic r None s).

Definition matches (ic : bool) (r : regex) (s : string) : bool :=
  match search ic r s with Some _ => true | None => false end.

(** [re.findall(r, s)] for a pattern without groups.  After an empty
    match the scan moves on by one character. *)
Fixpoint findall_from (fuel : nat) (ic : bool) (r : regex)
    (prev : option ascii) (s : string) : list string :=
  match fuel with
  | O => []
  | S f =>
      match search_from ic r prev s with
      | None => []
      | Some (st, e) =>
          let m := matched_text (st, e) in
          match last_char m with
          | Some c => m :: findall_from f ic r (Some c) e
          | None =>
              match st with
              | EmptyString => [m]
              | String c st' => m :: findall_from f ic r (Some c) st'
              end
          end
      end
  end.

Definition findall (ic : bool) (r : regex) (s : string) : list string :=
  findall_from (S (String.length s)) ic r None s.

(** Pattern builders. *)
Fixpoint lit (s : string) : regex :=
  match s with
  | EmptyString => Eps
  | String c EmptyString => Lit c
  | String c s' => Seq (Lit c) (lit s')
  end.

Fixpoint alts (l : list regex) : regex :=
  match l with
  | [] => Cls false []
  | [a] => a
  | a :: l' => Alt a (alts l')
  end.

Fixpoint seqs (l : list regex) : regex :=
  match l with
  | [] => Eps
  | [a] => a
  | a :: l' => Seq a (seqs l')
  end.

(** [\b(w1|w2|...)\b] *)
Definition words (ws : list string) : regex :=
  seqs [WordB; alts (map lit ws); WordB].

(** [[xyz]] *)
Definition cls (s : string) : regex := Cls false (list_ascii_of_string s).

(** A character outside the class [\d]. *)
Definition not_digit (c : ascii) : bool := negb (is_digit c).

(** A character outside the class [\w]. *)
Definition not_word (c : ascii) : bool := negb (is_word c).

End Regex.

(** ** Python numbers *)

Module PyNum.

Definition Qltb (a b : Q) : bool := negb (Qle_bool b a).

(** [max(a, b)] and [min(a, b)]: the first argument is kept unless the
    second is strictly beyond it. *)
Definition py_max (a b : Q) : Q := if Qltb a b then b else a.
Definition py_min (a b : Q) : Q := if Qltb b a then b else a.

(** [len(x)] as a number. *)
Definition of_nat (n : nat) : Q := inject_Z (Z.of_nat n).

End PyNum.

(** ** The pattern-based classifier ([intent_classifier.py]) *)

Module IntentClassifier.
Import PyStr Regex PyNum.

Definition greeting_patterns : list regex :=
  [ words ["hi"; "hello"; "hey"; "good morning"; "good afternoon";
           "good evening"; "greetings"];
    words ["how are you"; "how do you do"; "what's up"; "sup"];
    words ["nice to meet you"; "pleased to meet you"];
    words ["good day"; "good night"];
    seqs [Bol; Star (cls "!"); cls "hH"; cls "eE"; cls "lL"; cls "lL";
          cls "oO"; Star (cls "!"); Eol];
    seqs [Bol; Star (cls "!"); cls "hH"; cls "iI"; Star (cls "!"); Eol];
    seqs [Bol; Star (cls "!"); cls "hH"; cls "eE"; cls "yY";
          Star (cls "!"); Eol] ].

Definition query_patterns : list regex :=
  [ words ["what"; "how"; "why"; "when"; "where"; "who"; "which";
           "can you"; "could you"; "would you"];
    words ["explain"; "describe"; "tell me"; "show me"; "help me"];
    words ["how to"; "how do"; "how can"; "how does"];
    words ["what is"; "what are"; "what does"; "what do"];
    words ["why is"; "why are"; "why does"; "why do"];
    words ["when is"; "when are"; "when does"; "when do"];
    words ["where is"; "where are"; "where does"; "where do"];
    words ["who is"; "who are"; "who does"; "who do"];
    words ["which is"; "which are"; "which does"; "which do"];
    words ["can you"; "could you"; "would you"; "will you"];
    words ["please"; "help"; "assist"; "support"] ].

Definition information_patterns : list regex :=
  [ words ["here is"; "here are"; "let me tell you"; "i want to tell you"];
    words ["i have"; "i know"; "i think"; "i believe"; "i feel"];
    words ["in my opinion"; "according to"; "based on"];
    words ["i want to share"; "i'd like to share"; "let me share"];
    words ["this is"; "these are"; "that is"; "those are"];
    words ["i found"; "i discovered"; "i learned"];
    words ["update"; "news"; "information"; "data"; "fact"] ].

Definition feedback_patterns : list regex :=
  [ words ["thank you"; "thanks"; "thx"; "thank"];
    words ["great"; "awesome"; "excellent"; "amazing"; "wonderful";
           "fantastic"];
    words ["good"; "nice"; "cool"; "sweet"; "perfect"; "brilliant"];
    words ["bad"; "terrible"; "awful"; "horrible"; "disappointing"];
    words ["wrong"; "incorrect"; "not right"; "not correct"];
    words ["like"; "love"; "enjoy"; "appreciate"];
    words ["dislike"; "hate"; "don't like"; "not good"];
    words ["helpful"; "useful"; "useless"; "not helpful"];
    words ["clear"; "confusing"; "unclear"; "understand";
           "don't understand"];
    words ["agree"; "disagree"; "correct"; "incorrect"];
    words ["rate"; "rating"; "score"; "review"; "feedback"];
    words ["improve"; "better"; "worse"; "change"] ].

(** The lists [*_regex]: every pattern compiled with [re.IGNORECASE]. *)
Definition compiled_search (r : regex) (message : string) : bool :=
  matches true r message.

(** [_calculate_score] *)
Definition _calculate_score (message : string) (patterns : list regex)
    : Q :=
  let matches := List.length (filter (fun p => compiled_search p message)
                                     patterns) in
  let total_patterns := List.length patterns in
  let base_score :=
    if Nat.ltb 0 total_patterns
    then of_nat matches / of_nat total_patterns else 0 in
  let length_factor :=
    py_max (1 # 2) (1 - of_nat (String.length message) / 200) in
  py_min 1 (base_score * length_factor).

(** [max(scores, key=scores.get)] over the dictionary in insertion
    order: a later key replaces the current one only when its score is
    strictly greater. *)
Fixpoint max_by_score (best : string * Q) (rest : list (string * Q))
    : string * Q :=
  match rest with
  | [] => best
  | kv :: rest' =>
      max_by_score (if Qltb (snd best) (snd kv) then kv else best) rest'
  end.

(** The dictionary [scores] of [classify_intent], for the stripped and
    lowercased message. *)
Definition scores (message : string) : list (string * Q) :=
  [ ("greetings", _calculate_score message greeting_patterns);
    ("query", _calculate_score message query_patterns);
    ("information", _calculate_score message information_patterns);
    ("feedback", _calculate_score message feedback_patterns) ].

(** [classify_intent] *)
Definition classify_intent (message : string) : string * Q :=
  if blank message
  then ("query", 0)
  else
    let message := lower (strip message) in
    match scores message with
    | [] => ("query", 1 # 10)
    | first :: others =>
        let '(max_intent, max_score) := max_by_score first others in
        if Qltb max_score (1 # 10) then ("query", 1 # 10)
        else (max_intent, max_score)
    end.

Definition stop_words : list string :=
  [ "the"; "a"; "an"; "and"; "or"; "but"; "in"; "on"; "at"; "to"; "for";
    "of"; "with"; "by"; "is"; "are"; "was"; "were"; "be"; "been"; "being";
    "have"; "has"; "had"; "do"; "does"; "did"; "will"; "would"; "could";
    "should"; "may"; "might"; "can"; "this"; "that"; "these"; "those";
    "i"; "you"; "he"; "she"; "it"; "we"; "they"; "me"; "him"; "her"; "us";
    "them" ].

Definition is_stop_word (w : string) : bool :=
  existsb (String.eqb w) stop_words.

(** The pattern [\b\w+\b]. *)
Definition word_pattern : regex := seqs [WordB; Plus WordChar; WordB].

(** [extract_keywords] *)
Definition extract_keywords (message : string) : list string :=
  let words := findall false word_pattern (lower message) in
  let keywords :=
    filter (fun word =>
              (negb (is_stop_word word) && Nat.ltb 2 (String.length word))%bool)
           words in
  firstn 10 keywords.

(** The four lists [*_regex], by intent, in the order of the dictionary
    [scores]. *)
Definition pattern_table : list (string * list regex) :=
  [ ("greetings", greeting_patterns);
    ("query", query_patterns);
    ("information", information_patterns);
    ("feedback", feedback_patterns) ].

(** The dictionary [descriptions] of [get_intent_description]. *)
Definition descriptions : list (string * string) :=
  [ ("greetings", "User is greeting or starting a conversation");
    ("query", "User is asking a question or seeking information");
    ("information", "User is providing information or sharing knowledge");
    ("feedback", "User is giving feedback, thanks, or expressing opinion") ].

(** [d.get(key)] on a dictionary of strings. *)
Fixpoint dict_get (key : string) (d : list (string * string))
    : option string :=
  match d with
  | [] => None
  | (k, v) :: rest => if String.eqb k key then Some v else dict_get key rest
  end.

(** [get_intent_description] *)
Definition get_intent_description (intent : string) : string :=
  match dict_get intent descriptions with
  | Some d => d
  | None => "Unknown intent"
  end.

(** [analyze_message_complexity] *)
Definition analyze_message_complexity (message : string) : string :=
  let word_count := List.length (split_ws message) in
  if Nat.leb word_count 3 then "simple"
  else if Nat.leb word_count 10 then "moderate"
  else "complex".

End IntentClassifier.

(** ** Programs that call the text-generation backend *)

Module Gateway.

(** One entry of the [messages] argument. *)
Record Turn : Type := { role : string; content : string }.

(** The arguments of one [chat_completion] call. *)
Record Request : Type :=
  { messages : list Turn; temperature : Q; max_tokens : Z }.

(** A raised [Exception], with its text. *)
Definition Exn : Type := string.

Inductive Prog (A : Type) : Type :=
| Ret (a : A)
| Raise (e : Exn)
| Call (rq : Request) (k : Exn + string -> Prog A).

Arguments Ret {A} a.
Arguments Raise {A} e.
Arguments Call {A} rq k.

Fixpoint bind {A B : Type} (p : Prog A) (f : A -> Prog B) : Prog B :=
  match p with
  | Ret a => f a
  | Raise e => Raise e
  | Call rq k => Call rq (fun r => bind (k r) f)
  end.

(** [try: p  except Exception as e: h e] *)
Fixpoint try_except {A : Type} (p : Prog A) (h : Exn -> Prog A) : Prog A :=
  match p with
  | Ret a => Ret a
  | Raise e => h e
  | Call rq k => Call rq (fun r => try_except (k r) h)
  end.

(** [await self.lm_client.chat_completion(...)]: the text of the reply,
    or the exception the client raises. *)
Definition chat_completion (rq : Request) : Prog string :=
  Call rq (fun r => match r with inl e => Raise e | inr s => Ret s end).

(** Running a program against a backend: the backend answers a request
    in a state of its own, which it may change. *)
Section Run.
Context {W : Type} (backend : Request -> W -> (Exn + string) * W).

Record Outcome (A : Type) : Type :=
  { result : Exn + A; final : W; calls : list Request }.

Arguments result {A} o.
Arguments final {A} o.
Arguments calls {A} o.

Fixpoint run {A : Type} (p : Prog A) (w : W) : Outcome A :=
  match p with
  | Ret a => {| result := inr a; final := w; calls := [] |}
  | Raise e => {| result := inl e; final := w; calls := [] |}
  | Call rq k =>
      let '(r, w') := backend rq w in
      let o := run (k r) w' in
      {| result := result o; final := final o;
         calls := rq :: calls o |}
  end.
End Run.

Arguments result {W A} o.
Arguments final {W A} o.
Arguments calls {W A} o.

(** Three backends to run programs against: one that always answers
    with the same text, one that always fails, and one that fails on its
    first call and answers with a text from then on; its state counts
    the calls. *)
Definition answering (text : string) (_ : Request) (w : unit)
    : (Exn + string) * unit := (inr text, w).

Definition failing (_ : Request) (w : unit) : (Exn + string) * unit :=
  (inl "Connection error", w).

Definition failing_once (text : string) (_ : Request) (w : nat)
    : (Exn + string) * nat :=
  (match w with O => inl "Connection error" | S _ => inr text end, S w).

End Gateway.

Notation "x <- c1 ;; c2" := (Gateway.bind c1 (fun x => c2))
  (at level 61, c1 at next level, right associativity).

(** ** The generative classifier ([ai_intent_classifier.py]) *)

Module AIIntentClassifier.
Import PyStr Regex PyNum Gateway.
Local Open Scope string_scope.

Definition unlines (l : list string) : string := join nl l.

Record Category : Type :=
  { description : string; examples : list string }.

Definition intent_categories : list (string * Category) :=
  [ ("greetings",
     {| description :=
          "Messages that are greetings, salutations, or ways to start a conversation";
        examples :=
          ["Hello"; "Hi there"; "Good morning"; "Hey"; "How are you?";
           "What's up?"; "Nice to meet you"; "Good day"; "Greetings";
           "Howdy"; "Sup"; "Yo"; "Good evening"; "Good afternoon"] |});
    ("query",
     {| description :=
          "Messages that ask questions, seek information, or request help";
        examples :=
          ["What is..."; "How do I..."; "Can you help me..."; "Explain...";
           "Tell me about..."; "I need help with..."; "How does... work?";
           "What do you think about..."; "Can you explain...";
           "I'm wondering..."; "Do you know..."; "Could you tell me...";
           "I want to know..."] |});
    ("information",
     {| description :=
          "Messages that provide information, share knowledge, or make statements";
        examples :=
          ["I want to tell you..."; "Here's what I know...";
           "Let me share..."; "I think that..."; "In my opinion...";
           "I believe..."; "I feel..."; "This is...";
           "That's interesting because..."; "I found out that...";
           "I learned that..."; "I discovered..."; "I know that..."] |});
    ("feedback",
     {| description :=
          "Messages that give feedback, express opinions, thanks, or reactions";
        examples :=
          ["Thank you"; "That's helpful"; "I like this"; "Great job";
           "That's awesome"; "I love it"; "This is terrible";
           "I hate this"; "That's wrong"; "I disagree"; "I agree";
           "That's correct"; "This is confusing"; "I don't understand";
           "That makes sense"; "Thanks a lot"; "Much appreciated";
           "That's amazing"; "This sucks"] |}) ].

(** [self.intent_categories.keys()] *)
Definition intent_keys : list string := map fst intent_categories.

(** [x in self.intent_categories] for a string [x]. *)
Definition is_intent (x : string) : bool := existsb (String.eqb x) intent_keys.

(** [_create_classification_prompt] *)
Definition _create_classification_prompt : string :=
  let prompt :=
    unlines
      [ "You are an expert at classifying user messages into intent categories. ";
        "";
        "INTENT CATEGORIES:";
        "" ] in
  let prompt :=
    fold_left
      (fun prompt kv =>
         let '(intent, info) := kv in
         prompt ++
         unlines
           [ "";
             upper intent ++ ":";
             "- Description: " ++ description info;
             "- Examples: " ++ join ", " (firstn 5 (examples info)) ++ "...";
             "" ])
      intent_categories prompt in
  prompt ++
  unlines
    [ "";
      "";
      "TASK:";
      "Classify the given user message into ONE of the four intent categories above.";
      "";
      "RULES:";
      "1. Choose the MOST APPROPRIATE category based on the message's primary purpose";
      "2. Consider the context and underlying meaning, not just keywords";
      "3. If a message could fit multiple categories, choose the most dominant one";
      "4. Be flexible with language variations, slang, and informal expressions";
      "5. Consider the user's intent, not just the literal words";
      "";
      "RESPONSE FORMAT:";
      "Respond with ONLY a JSON object in this exact format:";
      "{";
      "    " ++ dq ++ "intent" ++ dq ++ ": " ++ dq ++ "category_name" ++ dq ++ ",";
      "    " ++ dq ++ "confidence" ++ dq ++ ": 0.95,";
      "    " ++ dq ++ "reasoning" ++ dq ++ ": " ++ dq ++
        "Brief explanation of why this category was chosen" ++ dq;
      "}";
      "";
      "EXAMPLES:";
      "Message: " ++ dq ++ "Hi there!" ++ dq;
      "Response: {" ++ dq ++ "intent" ++ dq ++ ": " ++ dq ++ "greetings" ++
        dq ++ ", " ++ dq ++ "confidence" ++ dq ++ ": 0.98, " ++ dq ++
        "reasoning" ++ dq ++ ": " ++ dq ++ "Direct greeting" ++ dq ++ "}";
      "";
      "Message: " ++ dq ++ "What's the weather like?" ++ dq;
      "Response: {" ++ dq ++ "intent" ++ dq ++ ": " ++ dq ++ "query" ++ dq ++
        ", " ++ dq ++ "confidence" ++ dq ++ ": 0.95, " ++ dq ++
        "reasoning" ++ dq ++ ": " ++ dq ++ "Asking for information" ++ dq ++
        "}";
      "";
      "Message: " ++ dq ++ "I think this is a great idea" ++ dq;
      "Response: {" ++ dq ++ "intent" ++ dq ++ ": " ++ dq ++ "information" ++
        dq ++ ", " ++ dq ++ "confidence" ++ dq ++ ": 0.90, " ++ dq ++
        "reasoning" ++ dq ++ ": " ++ dq ++ "Sharing an opinion" ++ dq ++ "}";
      "";
      "Message: " ++ dq ++ "Thanks for your help!" ++ dq;
      "Response: {" ++ dq ++ "intent" ++ dq ++ ": " ++ dq ++ "feedback" ++
        dq ++ ", " ++ dq ++ "confidence" ++ dq ++ ": 0.95, " ++ dq ++
        "reasoning" ++ dq ++ ": " ++ dq ++ "Expressing gratitude" ++ dq ++
        "}";
      "";
      "Now classify this message:" ].

Definition classification_prompt : string :=
  Eval vm_compute in _create_classification_prompt.

(** A value decoded by [json.loads]; an object is the list of its
    bindings. *)
#[warnings="-register-all"]
Inductive json : Type :=
| JNull
| JBool (b : bool)
| JNum (q : Q)
| JStr (s : string)
| JArr (l : list json)
| JObj (fields : list (string * json)).

(** [key in d] and [d[key]] on the bindings of an object. *)
Fixpoint lookup (key : string) (fields : list (string * json))
    : option json :=
  match fields with
  | [] => None
  | (k, v) :: rest => if String.eqb k key then Some v else lookup key rest
  end.

(** What the classifier hands to its caller: the entries [intent] and
    [confidence] of the dictionary. *)
Record IntentResult : Type := { intent : string; confidence : Q }.

(** The pattern that finds an embedded object: an opening brace, then
    the key [intent] in double quotes with any characters but a closing
    brace on either side, then a closing brace. *)
Definition json_pattern : regex :=
  seqs [ Lit "{"; Star (Cls true ["}"%char]);
         lit (dq ++ "intent" ++ dq);
         Star (Cls true ["}"%char]); Lit "}" ].

(** The pattern for a numeral: one or more digits, an optional point,
    any number of digits.  Its only group is the whole match. *)
Definition number_pattern : regex :=
  seqs [ Plus Digit; Opt (Lit "."); Star Digit ].

(** What is left of a text after an optional point and the digits behind
    it: where a match of the numeral pattern ends, once its first digits
    are passed. *)
Definition after_fraction (s : string) : string :=
  match s with
  | String c s' =>
      if Ascii.eqb c "." then lstrip_by is_digit s' else lstrip_by is_digit s
  | EmptyString => EmptyString
  end.

Fixpoint digits_value (acc : Z) (s : string) : option Z :=
  match s with
  | EmptyString => Some acc
  | String c s' =>
      if is_digit c
      then digits_value (10 * acc + (Z.of_N (code c) - 48)) s'
      else None
  end.

Fixpoint before_first (sep : ascii) (s : string) : string :=
  match s with
  | EmptyString => EmptyString
  | String c s' =>
      if Ascii.eqb c sep then EmptyString else String c (before_first sep s')
  end.

(** [float(s)] on the texts [number_pattern] matches: digits, then
    possibly a point and more digits.  [None] stands for [ValueError]. *)
Definition py_float (s : string) : option Q :=
  let whole := before_first "." s in
  if is_empty whole then None
  else
    match digits_value 0 whole with
    | None => None
    | Some w =>
        match after_first "." s with
        | None => Some (inject_Z w)
        | Some frac =>
            match digits_value 0 frac with
            | None => None
            | Some f =>
                Some (inject_Z w
                      + inject_Z f / inject_Z (10 ^ Z.of_nat (String.length frac)))
            end
        end
    end.

(** [_extract_intent_from_text] *)
Definition _extract_intent_from_text (response : string)
    : option IntentResult :=
  let response_lower := lower response in
  match filter (fun intent => contains intent response_lower) intent_keys with
  | [] => None
  | intent :: _ =>
      let confidence_match := search false number_pattern response in
      let confidence :=
        match confidence_match with
        | None => 8 # 10
        | Some group1 =>
            match py_float group1 with
            | None => 8 # 10
            | Some conf_val =>
                if Qltb 1 conf_val then conf_val / 100 else conf_val
            end
        end in
      Some {| intent := intent; confidence := confidence |}
  end.

(** The request of [classify_intent]: the prompt with the message, as
    one user turn. *)
Definition classification_request (message : string) : Request :=
  let full_prompt :=
    classification_prompt ++ nl ++ nl ++ "Message: " ++ dq ++ message
    ++ dq ++ nl ++ nl ++ "Response:" in
  {| messages := [ {| role := "user"; content := full_prompt |} ];
     temperature := 1 # 10;
     max_tokens := 200 |}.

Section Parse.
(** [json.loads]; [None] stands for the [JSONDecodeError] it raises. *)
Variable json_loads : string -> option json.

(** The body of the [try] of [_parse_ai_response]. *)
Definition parse_body (response : string) : Exn + option IntentResult :=
  let response := strip response in
  let fallback := inr (_extract_intent_from_text response) in
  match search false json_pattern response with
  | None => fallback
  | Some json_str =>
      match json_loads json_str with
      | None => inl "JSONDecodeError"
      | Some (JObj result) =>
          match lookup "intent" result with
          | None => fallback
          | Some (JArr _) | Some (JObj _) =>
              inl "TypeError: unhashable type"
          | Some (JStr label) =>
              if is_intent label then
                match lookup "confidence" result with
                | Some (JNum x) =>
                    inr (Some {| intent := label;
                                 confidence := py_max 0 (py_min 1 x) |})
                | Some (JBool b) =>
                    inr (Some {| intent := label;
                                 confidence :=
                                   py_max 0 (py_min 1 (if b then 1 else 0)) |})
                | _ => fallback
                end
              else fallback
          | Some _ => fallback
          end
      | Some _ => fallback
      end
  end.

(** [_parse_ai_response] *)
Definition _parse_ai_response (response : string) : option IntentResult :=
  match parse_body response with
  | inl _ => None
  | inr r => r
  end.

(** [classify_intent] *)
Definition classify_intent (message : string) : Prog (string * Q) :=
  if blank message
  then Ret ("query", 1 # 10)
  else
    try_except
      (response <- chat_completion (classification_request message) ;;
       match _parse_ai_response response with
       | Some intent_result =>
           Ret (intent intent_result, confidence intent_result)
       | None => Ret ("query", 1 # 2)
       end)
      (fun _ => Ret ("query", 3 # 10)).
End Parse.

(** [extract_keywords]: the same text as in the pattern-based
    classifier. *)
Definition extract_keywords (message : string) : list string :=
  let words := findall false IntentClassifier.word_pattern (lower message) in
  let keywords :=
    filter (fun word =>
              (negb (IntentClassifier.is_stop_word word)
               && Nat.ltb 2 (String.length word))%bool)
           words in
  firstn 10 keywords.

(** [self.intent_categories.get(intent)] *)
Fixpoint category_get (key : string) (d : list (string * Category))
    : option Category :=
  match d with
  | [] => None
  | (k, v) :: rest =>
      if String.eqb k key then Some v else category_get key rest
  end.

(** [get_intent_description]: an entry of [intent_categories] always has
    a description; a missing intent gives the empty dictionary, and the
    default text. *)
Definition get_intent_description (intent : string) : string :=
  match category_get intent intent_categories with
  | Some info => description info
  | None => "Unknown intent"
  end.

(** [analyze_message_complexity]: the same text as in the pattern-based
    classifier. *)
Definition analyze_message_complexity (message : string) : string :=
  let word_count := List.length (split_ws message) in
  if Nat.leb word_count 3 then "simple"
  else if Nat.leb word_count 10 then "moderate"
  else "complex".

End AIIntentClassifier.

(** ** The follow-up generator ([chain_query_generator.py]) *)

Module ChainQueryGenerator.
Import PyStr PyNum Gateway.
Local Open Scope string_scope.

Definition unlines (l : list string) : string := join nl l.

(** The dictionary built by the analysis of a reply. *)
Record Analysis : Type :=
  { type : string;
    topics : list string;
    complexity : string;
    completeness : string;
    exploration : string }.

Definition default_analysis : Analysis :=
  {| type := "general";
     topics := ["general information"];
     complexity := "moderate";
     completeness := "complete";
     exploration := "general aspects" |}.

(** [line.split(':', 1)[1]], used on lines that start with a key ending
    in a colon. *)
Definition after_colon (line : string) : string :=
  match after_first ":" line with
  | Some rest => rest
  | None => EmptyString
  end.


(** A reply in the format that the prompt of [_analyze_response] asks
    for, stating the characterization [a]. *)
Definition format_analysis (a : Analysis) : string :=
  unlines
    [ "Type: " ++ type a;
      "Topics: " ++ join ", " (topics a);
      "Complexity: " ++ complexity a;
      "Completeness: " ++ completeness a;
      "Exploration: " ++ exploration a ].

(** [_parse_analysis] *)
Definition _parse_analysis (response : string) : Analysis :=
  let lines := split_on nl_char (strip response) in
  fold_left
    (fun analysis line =>
       if startswith "Type:" line then
         {| type := lower (strip (after_colon line));
            topics := topics analysis;
            complexity := complexity analysis;
            completeness := completeness analysis;
            exploration := exploration analysis |}
       else if startswith "Topics:" line then
         let topics := strip (after_colon line) in
         {| type := type analysis;
            topics := map strip (split_on "," topics);
            complexity := complexity analysis;
            completeness := completeness analysis;
            exploration := exploration analysis |}
       else if startswith "Complexity:" line then
         {| type := type analysis;
            topics := topics analysis;
            complexity := lower (strip (after_colon line));
            completeness := completeness analysis;
            exploration := exploration analysis |}
       else if startswith "Completeness:" line then
         {| type := type analysis;
            topics := topics analysis;
            complexity := complexity analysis;
            completeness := lower (strip (after_colon line));
            exploration := exploration analysis |}
       else if startswith "Exploration:" line then
         {| type := type analysis;
            topics := topics analysis;
            complexity := complexity analysis;
            completeness := completeness analysis;
            exploration := strip (after_colon line) |}
       else analysis)
    lines default_analysis.

(** The request of [_analyze_response]. *)
Definition analysis_request (ai_response intent : string) : Request :=
  let prompt :=
    unlines
      [ "Analyze this AI response and determine the best follow-up approach:";
        "";
        "AI Response: " ++ dq ++ take 500 ai_response ++ dq;
        "User Intent: " ++ intent;
        "";
        "Determine:";
        "1. Response type: technical, practical, general, comparative, or educational";
        "2. Main topics mentioned (list 2-3 key topics)";
        "3. Complexity level: simple, moderate, or complex";
        "4. Whether it's a complete answer or needs more detail";
        "5. What aspects could be explored further";
        "";
        "Respond in this format:";
        "Type: [response_type]";
        "Topics: [topic1, topic2, topic3]";
        "Complexity: [complexity_level]";
        "Completeness: [complete/partial/overview]";
        "Exploration: [what can be explored further]";
        "" ] in
  {| messages := [ {| role := "user"; content := prompt |} ];
     temperature := 3 # 10;
     max_tokens := 150 |}.

(** [_analyze_response] *)
Definition _analyze_response (ai_response intent : string)
    : Prog Analysis :=
  try_except
    (response <- chat_completion (analysis_request ai_response intent) ;;
     Ret (_parse_analysis response))
    (fun _ => Ret default_analysis).

(** The characters removed by [line.strip(...)] in [_parse_questions]:
    the bullet U+2022, then [-*123456789. ]. *)
Definition marker_chars : list N := 8226%N :: chars_of "-*123456789. ".

(** What the first loop of [_parse_questions] keeps of a line, when it
    keeps it. *)
Definition clean_line (line : string) : string :=
  strip_chars marker_chars (strip line).

(** The first loop of [_parse_questions], on one line. *)
Definition scan_line (line : string) : list string :=
  let line := strip line in
  if (negb (is_empty line)
      && (has_char "?" line || ends_with_char "?" line))%bool
  then
    let question := strip_chars marker_chars line in
    if (negb (is_empty question) && Nat.ltb 10 (String.length question))%bool
    then [question] else []
  else [].

(** The second loop of [_parse_questions], on one sentence. *)
Definition scan_sentence (sentence : string) : list string :=
  if has_char "?" sentence then
    let question := strip sentence in
    if Nat.ltb 10 (String.length question) then [question] else []
  else [].

(** [_parse_questions] *)
Definition _parse_questions (response : string) : list string :=
  let lines := split_on nl_char (strip response) in
  let questions := flat_map scan_line lines in
  let questions :=
    match questions with
    | [] => flat_map scan_sentence (split_on "." response)
    | _ => questions
    end in
  firstn 3 questions.

(** [_get_fallback_questions] *)
Definition _get_fallback_questions (intent : string) : list string :=
  if String.eqb intent "query" then
    [ "Would you like to know more about this?";
      "Do you want me to explain this in more detail?";
      "Should I tell you more about this topic?" ]
  else if String.eqb intent "information" then
    [ "Would you like to explore this further?";
      "Do you want to know more about this?";
      "Should I dive deeper into this topic?" ]
  else
    [ "Would you like to know more about this?";
      "Do you want to explore this further?";
      "Should I tell you more about this?" ].

(** The three lists that [_get_fallback_questions] can return: the one
    of [query], the one of [information], and the one of any other
    argument. *)
Definition fallback_lists : list (list string) :=
  [ _get_fallback_questions "query";
    _get_fallback_questions "information";
    _get_fallback_questions "feedback" ].

(** The request of [_generate_questions]. *)
Definition questions_request (user_message : string)
    (analysis : Analysis) : Request :=
  let response_type := type analysis in
  let topics := topics analysis in
  let complexity := complexity analysis in
  let prompt :=
    unlines
      [ "Based on this conversation, generate 2-3 engaging follow-up questions:";
        "";
        "User asked: " ++ dq ++ take 200 user_message ++ dq;
        "AI responded about: " ++ join ", " (firstn 3 topics);
        "Response type: " ++ response_type;
        "Complexity: " ++ complexity;
        "";
        "Generate follow-up questions that:";
        "1. Are natural and conversational";
        "2. Encourage deeper exploration";
        "3. Match the user's interest level";
        "4. Are specific to the topics discussed";
        "5. Use varied question formats (would you like, do you want, should I, etc.)";
        "";
        "Examples of good follow-up questions:";
        "- " ++ dq ++ "Would you like to dive deeper into [specific topic]?" ++ dq;
        "- " ++ dq ++ "Do you want to know more about [specific aspect]?" ++ dq;
        "- " ++ dq ++ "Should I explain [related concept] in more detail?" ++ dq;
        "- " ++ dq ++ "Would you like to see some examples of [topic]?" ++ dq;
        "- " ++ dq ++ "Do you want to explore [specific area] further?" ++ dq;
        "";
        "Generate 2-3 questions, one per line, without numbering or bullet points.";
        "" ] in
  {| messages := [ {| role := "user"; content := prompt |} ];
     temperature := 7 # 10;
     max_tokens := 200 |}.

(** [_generate_questions] *)
Definition _generate_questions (user_message ai_response : string)
    (analysis : Analysis) : Prog (list string) :=
  let response_type := type analysis in
  try_except
    (response <- chat_completion (questions_request user_message analysis) ;;
     Ret (_parse_questions response))
    (fun _ => Ret (_get_fallback_questions response_type)).

(** [generate_follow_up_questions] *)
Definition generate_follow_up_questions
    (user_message ai_response intent : string) : Prog (list string) :=
  try_except
    (response_analysis <- _analyze_response ai_response intent ;;
     follow_ups <-
       _generate_questions user_message ai_response response_analysis ;;
     Ret follow_ups)
    (fun _ => Ret (_get_fallback_questions intent)).

(** The body of [append_best_follow_up_to_response], with the call
    [self.generate_follow_up_questions(...)] as the program [generate]. *)
Definition append_best_with (generate : Prog (list string))
    (ai_response : string) : Prog string :=
  try_except
    (follow_ups <- generate ;;
     match follow_ups with
     | [] => Ret ai_response
     | first :: _ =>
         let best_follow_up := strip_chars (chars_of dq) first in
         let enhanced_response :=
           ai_response ++ nl ++ nl ++ best_follow_up in
         Ret enhanced_response
     end)
    (fun _ => Ret ai_response).

(** [append_best_follow_up_to_response] *)
Definition append_best_follow_up_to_response
    (user_message ai_response intent : string) : Prog string :=
  append_best_with
    (generate_follow_up_questions user_message ai_response intent)
    ai_response.

(** [should_generate_follow_up] *)
Definition should_generate_follow_up (intent : string)
    (response_length : Z) : bool :=
  if (String.eqb intent "greetings" || Z.ltb response_length 50)%bool
  then false
  else existsb (String.eqb intent) ["query"; "information"; "feedback"].

(** What every parsed characterization satisfies. *)
Record normalized (a : Analysis) : Prop :=
  { norm_type : lower (type a) = type a /\ strip (type a) = type a;
    norm_topics : topics a <> [] /\ Forall (fun t => strip t = t) (topics a);
    norm_complexity :
      lower (complexity a) = complexity a
      /\ strip (complexity a) = complexity a;
    norm_completeness :
      lower (completeness a) = completeness a
      /\ strip (completeness a) = completeness a;
    norm_exploration : strip (exploration a) = exploration a }.

(** A characterization that a reply in the requested format can state
    and the parser can read back: no field goes over a line; the category,
    the complexity and the completeness are stripped and in lower case;
    the topics are not empty, stripped and free of commas; the exploration
    hint is not empty and stripped. *)
Record well_formed (a : Analysis) : Prop :=
  { wf_type :
      lower (type a) = type a /\ strip (type a) = type a
      /\ has_char nl_char (type a) = false;
    wf_topics :
      topics a <> [] /\
      Forall (fun t => t <> EmptyString /\ strip t = t
                       /\ has_char "," t = false
                       /\ has_char nl_char t = false) (topics a);
    wf_complexity :
      lower (complexity a) = complexity a
      /\ strip (complexity a) = complexity a
      /\ has_char nl_char (complexity a) = false;
    wf_completeness :
      lower (completeness a) = completeness a
      /\ strip (completeness a) = completeness a
      /\ has_char nl_char (completeness a) = false;
    wf_exploration :
      exploration a <> EmptyString /\ strip (exploration a) = exploration a
      /\ has_char nl_char (exploration a) = false }.

(** What [_parse_questions] asks of every string it returns. *)
Definition is_question (q : string) : Prop :=
  has_char "?" q = true /\ (10 < String.length q)%nat.

(** A question that the line scan of [_parse_questions] keeps as it is. *)
Definition clean_question (q : string) : Prop :=
  has_char "?" q = true /\ (10 < String.length q)%nat /\
  strip q = q /\ strip_chars marker_chars q = q /\
  has_char nl_char q = false.

End ChainQueryGenerator.

(** ** The callers in [api_routes.py] *)

Module ApiRoutes.
Import PyStr Gateway.
Local Open Scope string_scope.

(** The response model [IntentAnalysis] of [models.py]. *)
Record IntentAnalysis : Type :=
  { intent : string;
    confidence : Q;
    description : string;
    keywords : list string;
    complexity : string }.

Section Endpoints.
(** [json.loads], as in the classifier. *)
Variable json_loads : string -> option AIIntentClassifier.json.

(** [analyze_intent], the endpoint [/api/analyze-intent].  An exception
    in the body is raised again as an [HTTPException] with the status 500
    and the text of the exception as its detail. *)
Definition analyze_intent (message : string) : Prog IntentAnalysis :=
  try_except
    (r <- AIIntentClassifier.classify_intent json_loads message ;;
     let '(intent, confidence) := r in
     let keywords := AIIntentClassifier.extract_keywords message in
     let complexity := AIIntentClassifier.analyze_message_complexity message in
     let description := AIIntentClassifier.get_intent_description intent in
     Ret {| intent := intent;
            confidence := confidence;
            description := description;
            keywords := keywords;
            complexity := complexity |})
    (fun e => Raise e).
End Endpoints.

(** The step of [chat_endpoint] and [continue_chat_endpoint] that
    enhances the reply of the backend with a follow-up question: when
    [should_generate_follow_up] allows it, the reply becomes the result of
    [append_best_follow_up_to_response], or stays as it is if that
    raises. *)
Definition enhance_response (message response intent : string)
    : Prog string :=
  if ChainQueryGenerator.should_generate_follow_up
       intent (Z.of_nat (String.length response))
  then
    try_except
      (ChainQueryGenerator.append_best_follow_up_to_response
         message response intent)
      (fun _ => Ret response)
  else Ret response.

End ApiRoutes.

(** ** Relations used in the statements *)

Module Rel.

(** [l1] is [l2] with some elements left out, the order kept. *)
Inductive Subseq {A : Type} : list A -> list A -> Prop :=
| Subseq_nil : Subseq [] []
| Subseq_skip (x : A) (l1 l2 : list A) :
    Subseq l1 l2 -> Subseq l1 (x :: l2)
| Subseq_keep (x : A) (l1 l2 : list A) :
    Subseq l1 l2 -> Subseq (x :: l1) (x :: l2).

(** [s] is the end of [t]. *)
Inductive suffix : string -> string -> Prop :=
| suffix_refl (s : string) : suffix s s
| suffix_skip (c : ascii) (s t : string) :
    suffix s t -> suffix s (String c t).

(** The characters of a string all satisfy [P]. *)
Definition chars (P : ascii -> Prop) (s : string) : Prop :=
  Forall P (list_ascii_of_string s).

End Rel.

(** * Properties *)

(** ** Characters and strings *)

Section StringFacts.
Import PyStr.

Ltac all_chars c := destruct c as [[] [] [] [] [] [] [] []]; reflexivity.

Lemma lower_char_idem (c : ascii) : lower_char (lower_char c) = lower_char c.
Proof. all_chars c. Qed.

Lemma isspace_lower_char (c : ascii) : isspace (lower_char c) = isspace c.
Proof. all_chars c. Qed.

Lemma is_empty_true (s : string) : is_empty s = true -> s = EmptyString.
Proof. destruct s; simpl; congruence. Qed.

Lemma is_empty_map_str (f : ascii -> ascii) (s : string) :
  is_empty (map_str f s) = is_empty s.
Proof. destruct s; reflexivity. Qed.

Section Strip.
Variable p : ascii -> bool.

Lemma lstrip_by_app (s t : string) :
  lstrip_by p (s ++ t) =
  if all_str p s then lstrip_by p t else (lstrip_by p s ++ t)%string.
Proof.
  induction s as [|c s IH]; simpl; [reflexivity|].
  destruct (p c); simpl; [exact IH | reflexivity].
Qed.

Lemma lstrip_by_all (s : string) :
  all_str p s = true -> lstrip_by p s = EmptyString.
Proof.
  induction s as [|c s IH]; simpl; [reflexivity|].
  destruct (p c); simpl; [exact IH | discriminate].
Qed.

Lemma rstrip_by_all (s : string) :
  all_str p s = true -> rstrip_by p s = EmptyString.
Proof.
  induction s as [|c s IH]; simpl; [reflexivity|].
  destruct (p c); simpl; [|discriminate].
  intros H. rewrite (IH H). reflexivity.
Qed.

Lemma rstrip_by_app (s t : string) :
  all_str p t = true -> rstrip_by p (s ++ t) = rstrip_by p s.
Proof.
  intros H. induction s as [|c s IH]; simpl.
  - now apply rstrip_by_all.
  - now rewrite IH.
Qed.

(** Stripping ignores text of the stripped kind added at either end. *)
Lemma strip_by_pad (l s r : string) :
  all_str p l = true -> all_str p r = true ->
  strip_by p (l ++ s ++ r) = strip_by p s.
Proof.
  intros Hl Hr. unfold strip_by.
  rewrite lstrip_by_app, Hl, lstrip_by_app.
  destruct (all_str p s) eqn:Hs.
  - rewrite (lstrip_by_all r Hr), (lstrip_by_all s Hs). reflexivity.
  - now apply rstrip_by_app.
Qed.

Lemma lstrip_by_head (s : string) :
  match lstrip_by p s with
  | EmptyString => True
  | String c _ => p c = false
  end.
Proof.
  induction s as [|c s IH]; simpl; [exact I|].
  destruct (p c) eqn:E; [exact IH | exact E].
Qed.

Lemma rstrip_by_idem (s : string) :
  rstrip_by p (rstrip_by p s) = rstrip_by p s.
Proof.
  induction s as [|c s IH]; simpl; [reflexivity|].
  destruct (is_empty (rstrip_by p s) && p c)%bool eqn:E; simpl.
  - reflexivity.
  - rewrite IH, E. reflexivity.
Qed.

Lemma lstrip_rstrip_head (s : string) :
  match s with EmptyString => True | String c _ => p c = false end ->
  lstrip_by p (rstrip_by p s) = rstrip_by p s.
Proof.
  destruct s as [|c s]; simpl; [reflexivity|].
  intros Hc. rewrite Hc, andb_false_r. simpl. now rewrite Hc.
Qed.

(** A stripped string is left alone by a second stripping. *)
Lemma strip_by_idem (s : string) :
  strip_by p (strip_by p s) = strip_by p s.
Proof.
  unfold strip_by.
  rewrite (lstrip_rstrip_head (lstrip_by p s) (lstrip_by_head s)).
  apply rstrip_by_idem.
Qed.

(** Stripping keeps the characters that are not of the stripped kind. *)
Lemma has_char_lstrip_by (c : ascii) (s : string) :
  p c = false -> has_char c (lstrip_by p s) = has_char c s.
Proof.
  intros Hc. induction s as [|x s IH]; simpl; [reflexivity|].
  destruct (p x) eqn:Hx; simpl; [|reflexivity].
  rewrite IH. destruct (Ascii.eqb_spec x c); [congruence | reflexivity].
Qed.

Lemma has_char_rstrip_by (c : ascii) (s : string) :
  p c = false -> has_char c (rstrip_by p s) = has_char c s.
Proof.
  intros Hc. induction s as [|x s IH]; simpl; [reflexivity|].
  destruct (is_empty (rstrip_by p s) && p x)%bool eqn:E; simpl.
  - apply andb_prop in E. destruct E as [E1 E2].
    apply is_empty_true in E1. rewrite E1 in IH. simpl in IH.
    rewrite <- IH.
    destruct (Ascii.eqb_spec x c); [congruence | reflexivity].
  - now rewrite IH.
Qed.

Lemma has_char_strip_by (c : ascii) (s : string) :
  p c = false -> has_char c (strip_by p s) = has_char c s.
Proof.
  intros Hc. unfold strip_by.
  now rewrite has_char_rstrip_by, has_char_lstrip_by.
Qed.

(** Stripping commutes with a character map that respects the kind. *)
Lemma strip_by_map_str (f : ascii -> ascii) (s : string) :
  (forall c, p (f c) = p c) ->
  strip_by p (map_str f s) = map_str f (strip_by p s).
Proof.
  intros Hf. unfold strip_by.
  assert (L : forall t, lstrip_by p (map_str f t) = map_str f (lstrip_by p t)).
  { induction t as [|c t IH]; simpl; [reflexivity|].
    rewrite Hf. destruct (p c); [exact IH | reflexivity]. }
  assert (R : forall t, rstrip_by p (map_str f t) = map_str f (rstrip_by p t)).
  { induction t as [|c t IH]; simpl; [reflexivity|].
    rewrite IH, is_empty_map_str, Hf.
    destruct (is_empty (rstrip_by p t) && p c)%bool; reflexivity. }
  now rewrite L, R.
Qed.
End Strip.

Lemma strip_lower (s : string) : strip (lower s) = lower (strip s).
Proof. apply strip_by_map_str, isspace_lower_char. Qed.

Lemma startswith_app (s t : string) : startswith s (s ++ t) = true.
Proof.
  unfold startswith. induction s as [|c s IH]; simpl.
  - destruct t; reflexivity.
  - destruct (ascii_dec c c); [exact IH | congruence].
Qed.

Lemma startswith_refl (s : string) : startswith s s = true.
Proof.
  unfold startswith. induction s as [|c s IH]; simpl; [reflexivity|].
  destruct (ascii_dec c c); [exact IH | congruence].
Qed.

Lemma take_chars (P : ascii -> Prop) (n : nat) (s : string) :
  Forall P (list_ascii_of_string s) ->
  Forall P (list_ascii_of_string (take n s)).
Proof.
  revert s. induction n as [|n IH]; intros [|c s] H; simpl; try constructor.
  - now inversion H.
  - apply IH. now inversion H.
Qed.

Lemma lower_fixed (s : string) :
  Forall (fun c => lower_char c = c) (list_ascii_of_string s) ->
  lower s = s.
Proof.
  induction s as [|c s IH]; simpl; [reflexivity|].
  intros H. inversion H as [|? ? Hc Hs]; subst.
  unfold lower in *. simpl. now rewrite Hc, IH.
Qed.

Lemma lower_chars (s : string) :
  Forall (fun c => lower_char c = c) (list_ascii_of_string (lower s)).
Proof.
  induction s as [|c s IH]; simpl; constructor.
  - apply lower_char_idem.
  - exact IH.
Qed.
End StringFacts.

(** ** Subsequences *)

Section SubseqFacts.
Import Rel.
Context {A : Type}.

Lemma Subseq_nil_l (l : list A) : Subseq [] l.
Proof. induction l; constructor; assumption. Qed.

Lemma Subseq_trans (l1 l2 l3 : list A) :
  Subseq l1 l2 -> Subseq l2 l3 -> Subseq l1 l3.
Proof.
  intros H12 H23. revert l1 H12.
  induction H23 as [|x l2 l3 H IH|x l2 l3 H IH]; intros l1 H12.
  - exact H12.
  - constructor. now apply IH.
  - inversion H12; subst.
    + apply Subseq_skip. now apply IH.
    + apply Subseq_keep. now apply IH.
Qed.

Lemma Subseq_firstn (n : nat) (l : list A) : Subseq (firstn n l) l.
Proof.
  revert l. induction n as [|n IH]; intros [|x l]; simpl.
  - constructor.
  - apply Subseq_nil_l.
  - constructor.
  - apply Subseq_keep. apply IH.
Qed.

Lemma Subseq_filter (f : A -> bool) (l : list A) : Subseq (filter f l) l.
Proof.
  induction l as [|x l IH]; simpl; [constructor|].
  destruct (f x); [apply Subseq_keep | apply Subseq_skip]; exact IH.
Qed.

Lemma Subseq_flat_map {B : Type} (f : B -> list A) (g : B -> A)
    (l : list B) :
  (forall x, f x = [] \/ f x = [g x]) ->
  Subseq (flat_map f l) (map g l).
Proof.
  intros Hf. induction l as [|x l IH]; simpl; [constructor|].
  destruct (Hf x) as [E|E]; rewrite E; simpl;
    [apply Subseq_skip | apply Subseq_keep]; exact IH.
Qed.

Lemma Subseq_In (l1 l2 : list A) (x : A) :
  Subseq l1 l2 -> In x l1 -> In x l2.
Proof.
  induction 1 as [|y l1 l2 H IH|y l1 l2 H IH]; simpl; intros Hx.
  - exact Hx.
  - right. now apply IH.
  - destruct Hx as [->|Hx]; [now left | right; now apply IH].
Qed.
End SubseqFacts.

(** ** Rational arithmetic of the scores *)

Section NumFacts.
Import PyNum.

Lemma Qltb_true (a b : Q) : Qltb a b = true <-> a < b.
Proof.
  unfold Qltb. rewrite negb_true_iff. split.
  - intros H. apply Qnot_le_lt. intros Hle.
    apply Qle_bool_iff in Hle. congruence.
  - intros H. destruct (Qle_bool b a) eqn:E; [|reflexivity].
    apply Qle_bool_iff in E. exfalso. exact (Qlt_not_le _ _ H E).
Qed.

Lemma Qltb_false (a b : Q) : Qltb a b = false <-> b <= a.
Proof.
  unfold Qltb. rewrite negb_false_iff. apply Qle_bool_iff.
Qed.

Lemma py_max_lower (a b : Q) : a <= py_max a b.
Proof.
  unfold py_max. destruct (Qltb a b) eqn:E.
  - apply Qltb_true in E. now apply Qlt_le_weak.
  - apply Qle_refl.
Qed.

Lemma py_min_upper (a b : Q) : py_min a b <= a.
Proof.
  unfold py_min. destruct (Qltb b a) eqn:E.
  - apply Qltb_true in E. now apply Qlt_le_weak.
  - apply Qle_refl.
Qed.

Lemma py_min_lower (a b c : Q) : c <= a -> c <= b -> c <= py_min a b.
Proof. intros Ha Hb. unfold py_min. now destruct (Qltb b a). Qed.

Lemma py_max_upper (a b c : Q) : a <= c -> b <= c -> py_max a b <= c.
Proof. intros Ha Hb. unfold py_max. now destruct (Qltb a b). Qed.

(** The clamping [max(0.0, min(1.0, x))] lands in the unit interval. *)
Lemma clamp_unit (x : Q) : 0 <= py_max 0 (py_min 1 x) <= 1.
Proof.
  split.
  - apply py_max_lower.
  - apply py_max_upper; [discriminate | apply py_min_upper].
Qed.

Lemma of_nat_nonneg (n : nat) : 0 <= of_nat n.
Proof.
  unfold of_nat, Qle. simpl. lia.
Qed.
End NumFacts.

(** ** The matcher only moves forward *)

Section RegexFacts.
Import PyStr Regex Rel.

Lemma suffix_trans (a b c : string) : suffix a b -> suffix b c -> suffix a c.
Proof.
  intros Hab Hbc. induction Hbc as [|x b c H IH].
  - exact Hab.
  - constructor. now apply IH.
Qed.

Lemma suffix_chars (P : ascii -> Prop) (a b : string) :
  suffix a b -> chars P b -> chars P a.
Proof.
  unfold chars. induction 1 as [|c a b H IH]; intros Hb; [exact Hb|].
  simpl in Hb. apply IH. now inversion Hb.
Qed.

(** A successful match hands its continuation an end of the text it
    started from. *)
Lemma rmatch_suffix {A : Type} (ic : bool) (r : regex) :
  forall (prev : option ascii) (rest : string)
         (k : option ascii -> string -> option A) (x : A),
    rmatch ic r prev rest k = Some x ->
    exists p' s', suffix s' rest /\ k p' s' = Some x.
Proof.
  assert (One : forall (p : ascii -> bool) rest
                       (k : option ascii -> string -> option A) x,
             one p rest k = Some x ->
             exists p' s', suffix s' rest /\ k p' s' = Some x).
  { intros p [|c s] k x; simpl; [discriminate|].
    destruct (p c); [|discriminate].
    intros H. exists (Some c), s. split; [do 2 constructor | exact H]. }
  induction r as [| c | neg cs | | | a IHa b IHb | a IHa b IHb | a IHa
                  | | | ]; intros prev rest k x.
  - simpl. intros H. exists prev, rest. split; [constructor | exact H].
  - apply One.
  - apply One.
  - apply One.
  - apply One.
  - simpl. intros H. apply IHa in H. destruct H as (p1 & s1 & S1 & H).
    apply IHb in H. destruct H as (p2 & s2 & S2 & H).
    exists p2, s2. split; [exact (suffix_trans _ _ _ S2 S1) | exact H].
  - simpl. destruct (rmatch ic a prev rest k) eqn:E.
    + intros H. inversion H; subst. now apply IHa in E.
    + apply IHb.
  - set (loop :=
           fix loop (fuel : nat) (p : option ascii) (s : string)
               {struct fuel} : option A :=
             match fuel with
             | O => k p s
             | S f =>
                 match rmatch ic a p s
                         (fun p' s' =>
                            if Nat.ltb (String.length s') (String.length s)
                            then loop f p' s' else None) with
                 | Some y => Some y
                 | None => k p s
                 end
             end).
    change (rmatch ic (Star a) prev rest k)
      with (loop (S (String.length rest)) prev rest).
    generalize (S (String.length rest)) as fuel. intros fuel.
    revert prev rest. induction fuel as [|f IHf]; intros prev rest.
    + simpl. intros H. exists prev, rest. split; [constructor | exact H].
    + change (loop (S f) prev rest)
        with (match rmatch ic a prev rest
                      (fun p' s' =>
                         if Nat.ltb (String.length s') (String.length rest)
                         then loop f p' s' else None) with
              | Some y => Some y
              | None => k prev rest
              end).
      destruct (rmatch ic a prev rest _) eqn:E.
      * intros H. inversion H; subst. apply IHa in E.
        destruct E as (p1 & s1 & S1 & E).
        destruct (Nat.ltb (String.length s1) (String.length rest));
          [|discriminate].
        apply IHf in E. destruct E as (p2 & s2 & S2 & E).
        exists p2, s2. split; [exact (suffix_trans _ _ _ S2 S1) | exact E].
      * intros H. exists prev, rest. split; [constructor | exact H].
  - simpl. destruct (xorb _ _); [|discriminate].
    intros H. exists prev, rest. split; [constructor | exact H].
  - simpl. destruct prev; [discriminate|].
    intros H. exists None, rest. split; [constructor | exact H].
  - simpl. destruct (_ || _)%bool; [|discriminate].
    intros H. exists prev, rest. split; [constructor | exact H].
Qed.

Lemma search_from_suffix (ic : bool) (r : regex) (s : string) :
  forall prev st e,
    search_from ic r prev s = Some (st, e) -> suffix st s /\ suffix e st.
Proof.
  induction s as [|c s IH]; intros prev st e; simpl.
  - destruct (rmatch ic r prev EmptyString _) eqn:E; [|discriminate].
    intros H. inversion H; subst. split; [constructor|].
    apply rmatch_suffix in E. destruct E as (p' & s' & S' & E).
    now inversion E; subst.
  - destruct (rmatch ic r prev (String c s) _) eqn:E.
    + intros H. inversion H; subst. split; [constructor|].
      apply rmatch_suffix in E. destruct E as (p' & s' & S' & E).
      now inversion E; subst.
    + intros H. apply IH in H. destruct H as [H1 H2].
      split; [now constructor | exact H2].
Qed.

(** Every text found by [findall] is made of characters of the
    subject. *)
Lemma findall_chars (P : ascii -> Prop) (ic : bool) (r : regex)
    (s : string) :
  chars P s -> Forall (chars P) (findall ic r s).
Proof.
  unfold findall. generalize (S (String.length s)) as fuel.
  generalize (@None ascii) as prev.
  intros prev fuel. revert prev s.
  induction fuel as [|f IH]; intros prev s Hs; simpl; [constructor|].
  destruct (search_from ic r prev s) as [[st e]|] eqn:E; [|constructor].
  apply search_from_suffix in E. destruct E as [S1 S2].
  pose proof (suffix_chars P _ _ S1 Hs) as Hst.
  pose proof (suffix_chars P _ _ S2 Hst) as He.
  assert (Hm : chars P (matched_text (st, e))).
  { unfold matched_text. simpl. now apply take_chars. }
  destruct (last_char (matched_text (st, e))).
  - constructor; [exact Hm | now apply IH].
  - destruct st as [|c st'].
    + constructor; [exact Hm | constructor].
    + constructor; [exact Hm|]. apply IH.
      unfold chars in *. simpl in Hst. now inversion Hst.
Qed.
End RegexFacts.

(** ** The gating policy *)

Section Gating.
Import ChainQueryGenerator.

(** C7.  [should_generate_follow_up] is false for the intent [greetings]
    whatever the length, false for every intent when the length is below
    50, and true exactly when the intent is [query], [information] or
    [feedback] and the length is at least 50; in particular it is false
    at ([query], 49) and true at ([query], 50) and ([feedback], 200). *)
Theorem C7_should_generate_follow_up :
  (forall n : Z, should_generate_follow_up "greetings" n = false) /\
  (forall (intent : string) (n : Z),
      (n < 50)%Z -> should_generate_follow_up intent n = false) /\
  (forall (intent : string) (n : Z),
      should_generate_follow_up intent n = true <->
      (In intent ["query"; "information"; "feedback"] /\ (50 <= n)%Z)) /\
  should_generate_follow_up "query" 49 = false /\
  should_generate_follow_up "query" 50 = true /\
  should_generate_follow_up "feedback" 200 = true.
Proof.
  split; [reflexivity|].
  split.
  { intros intent n Hn. unfold should_generate_follow_up.
    apply Z.ltb_lt in Hn. rewrite Hn, orb_true_r. reflexivity. }
  split; [|repeat split; reflexivity].
  intros intent n. unfold should_generate_follow_up.
  destruct (String.eqb_spec intent "greetings") as [->|Hg]; simpl.
  - split; [discriminate|].
    intros [[H|[H|[H|[]]]] _]; discriminate.
  - destruct (Z.ltb_spec n 50) as [Hn|Hn].
    + split; [discriminate | intros [_ H]; lia].
    + rewrite !orb_false_r. split.
      * intros H. split; [|exact Hn].
        destruct (String.eqb_spec intent "query") as [->|];
          [now left|].
        destruct (String.eqb_spec intent "information") as [->|];
          [now right; left|].
        destruct (String.eqb_spec intent "feedback") as [->|];
          [now right; right; left|].
        discriminate.
      * intros [[<-|[<-|[<-|[]]]] _]; reflexivity.
Qed.

Lemma C7_witness :
  (49 < 50)%Z /\ should_generate_follow_up "information" 49 = false.
Proof.
  split; [lia|].
  apply (proj1 (proj2 C7_should_generate_follow_up) "information" 49%Z).
  lia.
Defined.
End Gating.

(** ** The pattern-based classifier *)

Section PatternClassifier.
Import PyStr PyNum Regex Rel IntentClassifier.

Lemma blank_strip (m : string) : blank m = is_empty (strip m).
Proof. destruct m; reflexivity. Qed.

Lemma strip_all_space (m : string) :
  all_str isspace m = true -> strip m = EmptyString.
Proof.
  intros H. unfold strip, strip_by. now rewrite (lstrip_by_all _ _ H).
Qed.

(** Every score lies in the unit interval. *)
Lemma _calculate_score_unit (message : string) (patterns : list regex) :
  0 <= _calculate_score message patterns <= 1.
Proof.
  unfold _calculate_score. split; [|apply py_min_upper].
  apply py_min_lower; [discriminate|].
  apply Qmult_le_0_compat.
  - destruct (Nat.ltb 0 (List.length patterns)) eqn:E; [|apply Qle_refl].
    apply Nat.ltb_lt in E.
    apply Qle_shift_div_l.
    + unfold of_nat, Qlt. simpl. lia.
    + rewrite Qmult_0_l. apply of_nat_nonneg.
  - apply Qle_trans with (1 # 2); [discriminate | apply py_max_lower].
Qed.

(** [max] keeps the first key among those with the greatest score. *)
Lemma max_by_score_first (rest : list (string * Q)) :
  forall best : string * Q,
  exists l1 l2,
    best :: rest = l1 ++ max_by_score best rest :: l2 /\
    Forall (fun kv => snd kv < snd (max_by_score best rest)) l1 /\
    Forall (fun kv => snd kv <= snd (max_by_score best rest)) l2.
Proof.
  induction rest as [|kv rest IH]; intros best; simpl.
  - exists [], []. repeat split; constructor.
  - destruct (Qltb (snd best) (snd kv)) eqn:E.
    + apply Qltb_true in E.
      destruct (IH kv) as (l1 & l2 & Heq & H1 & H2).
      exists (best :: l1), l2. split; [simpl; now rewrite <- Heq|].
      split; [|exact H2]. constructor; [|exact H1].
      destruct l1 as [|x l1]; simpl in Heq.
      * injection Heq as Hk Hr. rewrite <- Hk. exact E.
      * injection Heq as Hk Hr. subst x. inversion H1; subst.
        eapply Qlt_trans; eassumption.
    + apply Qltb_false in E.
      destruct (IH best) as (l1 & l2 & Heq & H1 & H2).
      destruct l1 as [|x l1]; simpl in Heq.
      * injection Heq as Hk Hr.
        exists [], (kv :: l2). split; [simpl; now rewrite <- Hk, Hr|].
        split; [constructor|]. constructor; [|exact H2].
        rewrite <- Hk. exact E.
      * injection Heq as Hk Hr. subst x. inversion H1; subst.
        exists (best :: kv :: l1), l2. split; [simpl; now rewrite <- Hr|].
        split; [|exact H2].
        constructor; [assumption|]. constructor; [|assumption].
        eapply Qle_lt_trans; eassumption.
Qed.

(** The pattern-based classifier answers with one of the four intents
    and a confidence in the unit interval. *)
Lemma pattern_classify_range (m : string) :
  In (fst (classify_intent m)) ["greetings"; "query"; "information"; "feedback"]
  /\ 0 <= snd (classify_intent m) <= 1.
Proof.
  unfold classify_intent.
  destruct (blank m).
  { simpl. split; [tauto | split; discriminate]. }
  set (msg := lower (strip m)).
  unfold scores.
  destruct (max_by_score_first
              [ ("query", _calculate_score msg query_patterns);
                ("information", _calculate_score msg information_patterns);
                ("feedback", _calculate_score msg feedback_patterns) ]
              ("greetings", _calculate_score msg greeting_patterns))
    as (l1 & l2 & Heq & _ & _).
  destruct (max_by_score _ _) as [i c].
  destruct (Qltb c (1 # 10)).
  { simpl. split; [tauto | split; discriminate]. }
  assert (Hin : In (i, c)
                   [ ("greetings", _calculate_score msg greeting_patterns);
                     ("query", _calculate_score msg query_patterns);
                     ("information", _calculate_score msg information_patterns);
                     ("feedback", _calculate_score msg feedback_patterns) ]).
  { rewrite Heq. apply in_or_app. right. now left. }
  simpl in Hin. simpl.
  destruct Hin as [H|[H|[H|[H|[]]]]]; inversion H; subst;
    (split; [tauto | apply _calculate_score_unit]).
Qed.

(** C9.  The pattern-based [classify_intent] is a function of the
    message alone, so two calls on the same message give the same pair;
    and among the four intents, taken in the order greetings, query,
    information, feedback, it selects the first one whose score is the
    greatest: every earlier intent scores strictly less, every later one
    at most as much. *)
Theorem C9_pattern_classify_deterministic (m1 m2 : string) :
  m1 = m2 ->
  classify_intent m1 = classify_intent m2 /\
  let msg := lower (strip m1) in
  map fst (scores msg) = ["greetings"; "query"; "information"; "feedback"] /\
  exists l1 i c l2,
    scores msg = l1 ++ (i, c) :: l2 /\
    Forall (fun kv => snd kv < c) l1 /\
    Forall (fun kv => snd kv <= c) l2 /\
    classify_intent m1 =
    if blank m1 then ("query", 0)
    else if Qltb c (1 # 10) then ("query", 1 # 10) else (i, c).
Proof.
  intros <-. split; [reflexivity|]. intros msg. split; [reflexivity|].
  unfold classify_intent. fold msg.
  unfold scores.
  destruct (max_by_score_first
              [ ("query", _calculate_score msg query_patterns);
                ("information", _calculate_score msg information_patterns);
                ("feedback", _calculate_score msg feedback_patterns) ]
              ("greetings", _calculate_score msg greeting_patterns))
    as (l1 & l2 & Heq & H1 & H2).
  destruct (max_by_score _ _) as [i c].
  exists l1, i, c, l2. repeat split; assumption.
Qed.

Lemma C9_witness :
  let m := "thanks, what is the weather?" in
  m = m /\ classify_intent m = classify_intent m.
Proof.
  split; [reflexivity|].
  apply (C9_pattern_classify_deterministic
           "thanks, what is the weather?" "thanks, what is the weather?").
  reflexivity.
Defined.

(** C10.  The pattern-based [classify_intent] gives the same pair for a
    message, for any variant of it that differs only in letter case, and
    for either of them with white space added in front or behind. *)
Theorem C10_case_and_padding_invariant (m m' l r : string) :
  all_str isspace l = true ->
  all_str isspace r = true ->
  lower m' = lower m ->
  classify_intent (l ++ m' ++ r) = classify_intent m.
Proof.
  intros Hl Hr Hcase.
  assert (Hs : strip (l ++ m' ++ r) = strip m').
  { apply strip_by_pad; assumption. }
  assert (Hlow : lower (strip m') = lower (strip m)).
  { now rewrite <- !strip_lower, Hcase. }
  assert (Hb : blank (l ++ m' ++ r) = blank m).
  { rewrite !blank_strip, Hs.
    rewrite <- (is_empty_map_str lower_char (strip m')).
    rewrite <- (is_empty_map_str lower_char (strip m)).
    fold (lower (strip m')). fold (lower (strip m)). now rewrite Hlow. }
  unfold classify_intent. now rewrite Hb, Hs, Hlow.
Qed.

Lemma C10_witness :
  classify_intent ("  " ++ "HeLLo There" ++ " ") = classify_intent "hello there".
Proof.
  apply (C10_case_and_padding_invariant "hello there" "HeLLo There" "  " " ");
    reflexivity.
Defined.

(** C8.  [extract_keywords] returns at most 10 entries; they are words
    of the lowercased message in their order of occurrence; each is in
    lower case, longer than 2 characters and not a stop word; both
    classifiers compute the same list; and the keywords of "What is the
    weather like today" are what, weather, like, today. *)
Theorem C8_extract_keywords (m : string) :
  let tokens := findall false word_pattern (lower m) in
  let keywords := extract_keywords m in
  (List.length keywords <= 10)%nat /\
  Subseq keywords tokens /\
  Forall (fun w => lower w = w /\ (2 < String.length w)%nat
                   /\ is_stop_word w = false) keywords /\
  AIIntentClassifier.extract_keywords m = keywords /\
  extract_keywords "What is the weather like today"
  = ["what"; "weather"; "like"; "today"].
Proof.
  intros tokens keywords.
  assert (Hsub : Subseq keywords tokens).
  { unfold keywords, extract_keywords. fold tokens.
    eapply Subseq_trans; [apply Subseq_firstn | apply Subseq_filter]. }
  split; [apply firstn_le_length|].
  split; [exact Hsub|].
  split; [|split; reflexivity].
  apply Forall_forall. intros w Hw.
  assert (Hf : In w (filter
                       (fun word =>
                          (negb (is_stop_word word)
                           && Nat.ltb 2 (String.length word))%bool) tokens)).
  { unfold keywords, extract_keywords in Hw. fold tokens in Hw.
    eapply Subseq_In; [apply Subseq_firstn | exact Hw]. }
  apply filter_In in Hf. destruct Hf as [Hin Hkeep].
  apply andb_prop in Hkeep. destruct Hkeep as [Hstop Hlen].
  split; [|split].
  - apply lower_fixed.
    pose proof (findall_chars (fun c => lower_char c = c) false
                  word_pattern (lower m) (lower_chars m)) as Hall.
    rewrite Forall_forall in Hall. now apply Hall.
  - now apply Nat.ltb_lt.
  - now apply negb_true_iff.
Qed.
End PatternClassifier.

(** ** Running programs *)

Section RunFacts.
Import Gateway.
Context {W : Type} (backend : Request -> W -> (Exn + string) * W).

Lemma run_bind {A B : Type} (p : Prog A) (f : A -> Prog B) :
  forall w : W,
    run backend (bind p f) w =
    let o := run backend p w in
    match result o with
    | inl e => {| result := inl e; final := final o; calls := calls o |}
    | inr a =>
        let o' := run backend (f a) (final o) in
        {| result := result o'; final := final o';
           calls := calls o ++ calls o' |}
    end.
Proof.
  induction p as [a|e|rq k IH]; intros w; simpl.
  - now destruct (run backend (f a) w).
  - reflexivity.
  - destruct (backend rq w) as [r w']. rewrite IH. simpl.
    now destruct (result (run backend (k r) w')).
Qed.

Lemma run_try_except {A : Type} (p : Prog A) (h : Exn -> Prog A) :
  forall w : W,
    run backend (try_except p h) w =
    let o := run backend p w in
    match result o with
    | inr a => {| result := inr a; final := final o; calls := calls o |}
    | inl e =>
        let o' := run backend (h e) (final o) in
        {| result := result o'; final := final o';
           calls := calls o ++ calls o' |}
    end.
Proof.
  induction p as [a|e|rq k IH]; intros w; simpl.
  - reflexivity.
  - now destruct (run backend (h e) w).
  - destruct (backend rq w) as [r w']. rewrite IH. simpl.
    now destruct (result (run backend (k r) w')).
Qed.
End RunFacts.

(** ** The generative classifier *)

Section GenerativeClassifier.
Import PyStr PyNum Regex Gateway AIIntentClassifier.

(** C3 at the empty message: the pattern-based classifier gives the
    confidence 0, which is not 0.1. *)
Lemma C3_counterexample :
  IntentClassifier.classify_intent "" = ("query", 0) /\
  IntentClassifier.classify_intent "   " = ("query", 0) /\
  ~ (snd (IntentClassifier.classify_intent "") == 1 # 10).
Proof.
  split; [reflexivity|]. split; [reflexivity|]. simpl. discriminate.
Qed.

(** C3, amended.  On a message that is empty or made of white space
    only, the generative [classify_intent] is the program that returns
    ([query], 0.1) at once: run against any backend it calls nothing and
    leaves the backend as it was.  The pattern-based [classify_intent]
    returns ([query], 0.0) on such a message. *)
Theorem C3_blank_message (m : string) :
  all_str isspace m = true ->
  (forall json_loads,
      classify_intent json_loads m = Ret ("query", 1 # 10)) /\
  (forall json_loads (W : Type)
          (backend : Request -> W -> (Exn + string) * W) (w : W),
      let o := run backend (classify_intent json_loads m) w in
      result o = inr ("query", 1 # 10) /\ calls o = [] /\ final o = w) /\
  IntentClassifier.classify_intent m = ("query", 0).
Proof.
  intros H.
  assert (Hb : blank m = true).
  { rewrite blank_strip, (strip_all_space m H). reflexivity. }
  unfold classify_intent, IntentClassifier.classify_intent.
  rewrite Hb. repeat split.
Qed.

Lemma C3_witness :
  all_str isspace "   " = true /\
  IntentClassifier.classify_intent "   " = ("query", 0) /\
  classify_intent (fun _ => None) "   " = Ret ("query", 1 # 10).
Proof.
  split; [reflexivity|].
  destruct (C3_blank_message "   " eq_refl) as (H1 & _ & H3).
  split; [exact H3 | apply H1].
Defined.

(** C2 at a reply without an object and without an intent label: the
    answer is ([query], 0.5), not ([query], 0.3). *)
Lemma C2_counterexample :
  let loads := fun _ : string => @None json in
  _parse_ai_response loads "I cannot tell" = None /\
  result (run (answering "I cannot tell") (classify_intent loads "hello") tt)
  = inr ("query", 1 # 2) /\
  ~ (1 # 2 == 3 # 10).
Proof.
  split; [vm_compute; reflexivity|].
  split; [vm_compute; reflexivity | discriminate].
Qed.

(** When the reply holds no embedded object and no intent label,
    nothing is parsed from it. *)
Lemma _parse_ai_response_none (json_loads : string -> option json)
    (response : string) :
  search false json_pattern (strip response) = None ->
  _extract_intent_from_text (strip response) = None ->
  _parse_ai_response json_loads response = None.
Proof.
  intros Hj Ht. unfold _parse_ai_response, parse_body.
  now rewrite Hj, Ht.
Qed.

(** C2, amended.  On a message that is not blank, the generative
    [classify_intent] makes one call and never raises: it returns
    ([query], 0.3) when the call fails, ([query], 0.5) when nothing can be
    parsed from the reply (in particular when the reply holds neither an
    embedded object nor an intent label), and the parsed pair
    otherwise. *)
Theorem C2_generative_fallbacks (json_loads : string -> option json)
    (W : Type) (backend : Request -> W -> (Exn + string) * W) (w : W)
    (m : string) :
  blank m = false ->
  let o := run backend (classify_intent json_loads m) w in
  calls o = [classification_request m] /\
  match fst (backend (classification_request m) w) with
  | inl _ => result o = inr ("query", 3 # 10)
  | inr response =>
      (search false json_pattern (strip response) = None ->
       _extract_intent_from_text (strip response) = None ->
       result o = inr ("query", 1 # 2)) /\
      match _parse_ai_response json_loads response with
      | None => result o = inr ("query", 1 # 2)
      | Some r => result o = inr (intent r, confidence r)
      end
  end.
Proof.
  intros Hb o. subst o. unfold classify_intent. rewrite Hb.
  unfold chat_completion.
  cbn [try_except bind run result final calls].
  destruct (backend (classification_request m) w) as [[e|response] w'];
    cbn [try_except bind run result final calls fst].
  - split; reflexivity.
  - split.
    + now destruct (_parse_ai_response json_loads response).
    + split.
      * intros Hj Ht.
        now rewrite (_parse_ai_response_none json_loads response Hj Ht).
      * now destruct (_parse_ai_response json_loads response).
Qed.

Lemma C2_witness :
  blank "hello" = false /\
  result (run failing (classify_intent (fun _ => None) "hello") tt)
  = inr ("query", 3 # 10).
Proof.
  split; [reflexivity|].
  exact (proj2 (C2_generative_fallbacks (fun _ => None) unit failing tt
                  "hello" eq_refl)).
Defined.

(** C1 at the reply "query 250": the text-based extraction reads the
    numeral 250 as a percentage and divides it by 100, and the
    classifier answers with the confidence 2.5, above 1. *)
Theorem C1_text_confidence_above_one (json_loads : string -> option json) :
  _extract_intent_from_text "query 250"
  = Some {| intent := "query"; confidence := 250 # 100 |} /\
  result (run (answering "query 250") (classify_intent json_loads "hello") tt)
  = inr ("query", 250 # 100) /\
  1 < 250 # 100.
Proof.
  split; [vm_compute; reflexivity|].
  split; [vm_compute; reflexivity | reflexivity].
Qed.
(** What remains of C1: under every backend the generative classifier
    returns one of the four intents and a confidence that is not
    negative; a confidence taken from an embedded object is at most 1. *)
Lemma digits_value_nonneg (s : string) :
  forall acc v : Z,
    (0 <= acc)%Z -> digits_value acc s = Some v -> (0 <= v)%Z.
Proof.
  induction s as [|c s IH]; intros acc v Hacc; cbn [digits_value].
  - intros H. inversion H. now subst.
  - destruct (is_digit c) eqn:E; [|discriminate].
    apply IH. unfold is_digit, between in E.
    apply andb_prop in E. destruct E as [E _]. apply N.leb_le in E. lia.
Qed.

Lemma inject_Z_nonneg (z : Z) : (0 <= z)%Z -> 0 <= inject_Z z.
Proof. intros H. unfold Qle. simpl. lia. Qed.

Lemma Qdiv_nonneg (a b : Q) : 0 <= a -> 0 < b -> 0 <= a / b.
Proof.
  intros Ha Hb. apply Qle_shift_div_l; [exact Hb|].
  now rewrite Qmult_0_l.
Qed.

Lemma py_float_nonneg (s : string) (q : Q) : py_float s = Some q -> 0 <= q.
Proof.
  unfold py_float.
  destruct (is_empty (before_first "." s)); [discriminate|].
  destruct (digits_value 0 (before_first "." s)) as [w|] eqn:Ew;
    [|discriminate].
  apply digits_value_nonneg in Ew; [|lia].
  destruct (after_first "." s) as [frac|].
  - destruct (digits_value 0 frac) as [f|] eqn:Ef; [|discriminate].
    apply digits_value_nonneg in Ef; [|lia].
    intros H. inversion H; subst.
    change 0 with (0 + 0). apply Qplus_le_compat.
    + now apply inject_Z_nonneg.
    + apply Qdiv_nonneg; [now apply inject_Z_nonneg|].
      unfold Qlt. simpl. rewrite Z.mul_1_r.
      apply Z.pow_pos_nonneg; lia.
  - intros H. inversion H; subst. now apply inject_Z_nonneg.
Qed.

Lemma _extract_intent_from_text_sound (response : string)
    (r : IntentResult) :
  _extract_intent_from_text response = Some r ->
  In (intent r) intent_keys /\ 0 <= confidence r.
Proof.
  unfold _extract_intent_from_text.
  destruct (filter _ intent_keys) as [|i rest] eqn:E; [discriminate|].
  intros H. inversion H; subst; clear H. cbn [intent confidence]. split.
  - assert (Hin : In i (filter
                          (fun intent => contains intent (lower response))
                          intent_keys)).
    { rewrite E. now left. }
    apply filter_In in Hin. tauto.
  - destruct (search false number_pattern response) as [g|]; [|discriminate].
    destruct (py_float g) as [v|] eqn:Ev; [|discriminate].
    apply py_float_nonneg in Ev.
    destruct (Qltb 1 v); [|exact Ev].
    apply Qdiv_nonneg; [exact Ev | reflexivity].
Qed.

Lemma is_intent_In (label : string) :
  is_intent label = true -> In label intent_keys.
Proof.
  unfold is_intent. intros H. apply existsb_exists in H.
  destruct H as (k & Hk & E). apply String.eqb_eq in E. now subst.
Qed.

Lemma _parse_ai_response_sound (json_loads : string -> option json)
    (response : string) (r : IntentResult) :
  _parse_ai_response json_loads response = Some r ->
  In (intent r) intent_keys /\ 0 <= confidence r.
Proof.
  unfold _parse_ai_response, parse_body.
  destruct (search false json_pattern (strip response)) as [json_str|];
    [|apply _extract_intent_from_text_sound].
  destruct (json_loads json_str) as [[| | | | |fields]|];
    try apply _extract_intent_from_text_sound; [|discriminate].
  destruct (lookup "intent" fields) as [[| | |label| |]|];
    try apply _extract_intent_from_text_sound; try discriminate.
  destruct (is_intent label) eqn:El;
    [|apply _extract_intent_from_text_sound].
  apply is_intent_In in El.
  destruct (lookup "confidence" fields) as [[|b|x| | |]|];
    try apply _extract_intent_from_text_sound;
    intros H; inversion H; subst; cbn [intent confidence];
    (split; [exact El | apply clamp_unit]).
Qed.

Lemma generative_classify_sound (json_loads : string -> option json)
    (W : Type) (backend : Request -> W -> (Exn + string) * W) (w : W)
    (m : string) :
  exists i c,
    result (run backend (classify_intent json_loads m) w) = inr (i, c) /\
    In i intent_keys /\ 0 <= c.
Proof.
  unfold classify_intent.
  destruct (blank m).
  { exists "query", (1 # 10). cbn [run result].
    split; [reflexivity|]. split; [right; now left | discriminate]. }
  unfold chat_completion. cbn [try_except bind run result final calls].
  destruct (backend (classification_request m) w) as [[e|response] w'];
    cbn [try_except bind run result final calls].
  - exists "query", (3 # 10).
    split; [reflexivity|]. split; [right; now left | discriminate].
  - destruct (_parse_ai_response json_loads response) as [r|] eqn:E;
      cbn [try_except bind run result final calls].
    + exists (intent r), (confidence r). split; [reflexivity|].
      now apply _parse_ai_response_sound in E.
    + exists "query", (1 # 2).
      split; [reflexivity|]. split; [right; now left | discriminate].
Qed.
End GenerativeClassifier.

(** ** The follow-up generator *)

Section FollowUps.
Import PyStr PyNum Rel Gateway ChainQueryGenerator.
Local Open Scope string_scope.

Lemma ends_with_has_char (c : ascii) (s : string) :
  ends_with_char c s = true -> has_char c s = true.
Proof.
  induction s as [|x s IH]; simpl; [discriminate|].
  destruct s as [|y s'].
  - intros H. now rewrite H.
  - intros H. rewrite (IH H). apply orb_true_r.
Qed.

Lemma scan_line_cases (line : string) :
  scan_line line = [] \/ scan_line line = [clean_line line].
Proof.
  unfold scan_line, clean_line.
  destruct (negb (is_empty (strip line)) && _)%bool; [|now left].
  destruct (negb (is_empty _) && _)%bool; [now right | now left].
Qed.

Lemma scan_sentence_cases (sentence : string) :
  scan_sentence sentence = [] \/ scan_sentence sentence = [strip sentence].
Proof.
  unfold scan_sentence.
  destruct (has_char "?" sentence); [|now left].
  destruct (Nat.ltb 10 _); [now right | now left].
Qed.

Lemma scan_line_sound (line q : string) :
  In q (scan_line line) ->
  has_char "?" q = true /\ (10 < String.length q)%nat
  /\ strip_chars marker_chars q = q.
Proof.
  unfold scan_line.
  destruct (negb (is_empty (strip line))
            && (has_char "?" (strip line) || ends_with_char "?" (strip line)))%bool
    eqn:E1; [|intros []].
  destruct (negb (is_empty (strip_chars marker_chars (strip line)))
            && Nat.ltb 10 (String.length (strip_chars marker_chars (strip line))))%bool
    eqn:E2; [|intros []].
  intros [<-|[]].
  apply andb_prop in E1. destruct E1 as [_ E1].
  apply andb_prop in E2. destruct E2 as [_ E2].
  split; [|split].
  - unfold strip_chars. rewrite has_char_strip_by; [|reflexivity].
    apply orb_prop in E1. destruct E1 as [E1|E1]; [exact E1|].
    now apply ends_with_has_char.
  - now apply Nat.ltb_lt.
  - apply strip_by_idem.
Qed.

Lemma scan_sentence_sound (sentence q : string) :
  In q (scan_sentence sentence) ->
  has_char "?" q = true /\ (10 < String.length q)%nat.
Proof.
  unfold scan_sentence.
  destruct (has_char "?" sentence) eqn:E1; [|intros []].
  destruct (Nat.ltb 10 (String.length (strip sentence))) eqn:E2;
    [|intros []].
  intros [<-|[]]. split.
  - unfold strip. rewrite has_char_strip_by; [exact E1 | reflexivity].
  - now apply Nat.ltb_lt.
Qed.

(** C6 at a reply in double quotes, and at a reply of short bulleted
    lines: the parser keeps the quotes of the first, and the leading
    bullet of the second, which it takes as one sentence. *)
Lemma C6_counterexample :
  let quoted := dq ++ "Would you like to know more?" ++ dq in
  let bullets := "- Why?" ++ nl ++ "- How?" ++ nl ++ "- What?" in
  _parse_questions quoted = [quoted] /\
  strip_chars (chars_of dq) quoted <> quoted /\
  _parse_questions bullets = [bullets] /\
  strip_chars marker_chars bullets <> bullets.
Proof.
  split; [vm_compute; reflexivity|].
  split; [vm_compute; discriminate|].
  split; [vm_compute; reflexivity | vm_compute; discriminate].
Qed.

(** C6, amended.  [_parse_questions] returns at most 3 strings, each
    with a question mark and longer than 10 characters.  When some line
    of the reply qualifies, they are lines of the reply in their order,
    each stripped of white space and then of the marker characters
    (bullet, hyphen, asterisk, the digits 1 to 9, point, space) at both
    ends, so that none begins or ends with a marker.  Otherwise they are
    the sentences of the reply (its pieces between points) in their
    order, stripped of white space only.  Quote characters are never
    removed. *)
Theorem C6_parse_questions (response : string) :
  let lines := split_on nl_char (strip response) in
  let questions := _parse_questions response in
  (List.length questions <= 3)%nat /\
  Forall (fun q => has_char "?" q = true /\ (10 < String.length q)%nat)
         questions /\
  match flat_map scan_line lines with
  | [] => Subseq questions (map strip (split_on "." response))
  | _ :: _ =>
      Subseq questions (map clean_line lines) /\
      Forall (fun q => strip_chars marker_chars q = q) questions
  end.
Proof.
  intros lines questions. unfold questions, _parse_questions. fold lines.
  split; [apply firstn_le_length|].
  destruct (flat_map scan_line lines) as [|q0 qs] eqn:E.
  - split.
    + apply Forall_forall. intros q Hq.
      apply (Subseq_In _ _ _ (Subseq_firstn _ _)) in Hq.
      apply in_flat_map in Hq. destruct Hq as (sentence & _ & Hq).
      now apply scan_sentence_sound in Hq.
    + eapply Subseq_trans; [apply Subseq_firstn|].
      apply Subseq_flat_map, scan_sentence_cases.
  - rewrite <- E.
    assert (Hall : forall q, In q (firstn 3 (flat_map scan_line lines)) ->
                             has_char "?" q = true
                             /\ (10 < String.length q)%nat
                             /\ strip_chars marker_chars q = q).
    { intros q Hq.
      apply (Subseq_In _ _ _ (Subseq_firstn _ _)) in Hq.
      apply in_flat_map in Hq. destruct Hq as (line & _ & Hq).
      now apply scan_line_sound in Hq. }
    split; [|split].
    + apply Forall_forall. intros q Hq. split; now apply Hall.
    + eapply Subseq_trans; [apply Subseq_firstn|].
      apply Subseq_flat_map, scan_line_cases.
    + apply Forall_forall. intros q Hq. now apply Hall.
Qed.

Lemma _get_fallback_questions_fixed (intent : string) :
  In (_get_fallback_questions intent) fallback_lists.
Proof.
  unfold fallback_lists, _get_fallback_questions.
  destruct (String.eqb intent "query"); [now left|].
  destruct (String.eqb intent "information"); [now right; left|].
  now right; right; left.
Qed.

(** C4 at two runs for the intent [query].  When the analysis call
    fails and the generation call answers, the questions of the answer
    are returned, not a fallback list; when both calls fail, the list
    returned is the generic one, not the one of [query]. *)
Lemma C4_counterexample :
  let text := "Would you like to hear more about it?" in
  result (run (failing_once text)
              (generate_follow_up_questions "what is x" "reply" "query") O)
  = inr [text] /\
  ~ In [text] fallback_lists /\
  result (run failing
              (generate_follow_up_questions "what is x" "reply" "query") tt)
  = inr (_get_fallback_questions "feedback") /\
  _get_fallback_questions "feedback" <> _get_fallback_questions "query".
Proof.
  split; [vm_compute; reflexivity|].
  split.
  { vm_compute. intros [H|[H|[H|[]]]]; discriminate. }
  split; [vm_compute; reflexivity | vm_compute; discriminate].
Qed.

(** C4, amended.  [generate_follow_up_questions] never raises.  It
    makes the analysis call and then the generation call.  If the
    analysis call fails, the default characterization takes the place of
    the parsed one and generation goes on.  If the generation call
    answers, the questions parsed from the answer are returned; if it
    fails, one of the three fixed fallback lists is returned. *)
Theorem C4_generate_follow_ups (W : Type)
    (backend : Request -> W -> (Exn + string) * W) (w : W)
    (user_message ai_response intent : string) :
  let o :=
    run backend
        (generate_follow_up_questions user_message ai_response intent) w in
  let first := backend (analysis_request ai_response intent) w in
  let analysis :=
    match fst first with
    | inl _ => default_analysis
    | inr text => _parse_analysis text
    end in
  let second :=
    backend (questions_request user_message analysis) (snd first) in
  calls o = [ analysis_request ai_response intent;
              questions_request user_message analysis ] /\
  match fst second with
  | inr text => result o = inr (_parse_questions text)
  | inl _ => exists l, result o = inr l /\ In l fallback_lists
  end.
Proof.
  unfold generate_follow_up_questions, _analyze_response,
    _generate_questions, chat_completion.
  cbn [try_except bind run result final calls].
  destruct (backend (analysis_request ai_response intent) w)
    as [[e1|t1] w1];
    cbn [try_except bind run result final calls fst snd].
  - destruct (backend (questions_request user_message default_analysis) w1)
      as [[e2|t2] w2];
      cbn [try_except bind run result final calls fst snd].
    + split; [reflexivity|]. eexists. split; [reflexivity|].
      apply _get_fallback_questions_fixed.
    + split; reflexivity.
  - destruct (backend (questions_request user_message (_parse_analysis t1)) w1)
      as [[e2|t2] w2];
      cbn [try_except bind run result final calls fst snd].
    + split; [reflexivity|]. eexists. split; [reflexivity|].
      apply _get_fallback_questions_fixed.
    + split; reflexivity.
Qed.

(** C5.  [append_best_follow_up_to_response] runs the generator inside
    a [try]; whatever the generator does, the enrichment never raises.
    It returns the reply unchanged when the generator returns no
    question or raises, and otherwise the reply, an empty line and the
    first question with the double quotes at its ends removed.  The
    reply is always the beginning of the result. *)
Theorem C5_append_best (W : Type)
    (backend : Request -> W -> (Exn + string) * W) (w : W)
    (generate : Prog (list string))
    (user_message ai_response intent : string) :
  (let g := run backend generate w in
   let o := run backend (append_best_with generate ai_response) w in
   result o
   = inr (match result g with
          | inr (first :: _) =>
              ai_response ++ nl ++ nl ++ strip_chars (chars_of dq) first
          | inr [] | inl _ => ai_response
          end)
   /\ calls o = calls g
   /\ exists out, result o = inr out /\ startswith ai_response out = true)
  /\ append_best_follow_up_to_response user_message ai_response intent
     = append_best_with
         (generate_follow_up_questions user_message ai_response intent)
         ai_response.
Proof.
  split; [|reflexivity].
  cbv zeta. unfold append_best_with.
  rewrite run_try_except, run_bind. cbv zeta.
  destruct (run backend generate w) as [[e|[|first rest]] w' cs];
    cbn [result final calls run];
    rewrite ?app_nil_r.
  - split; [reflexivity|]. split; [reflexivity|].
    exists ai_response. split; [reflexivity | apply startswith_refl].
  - split; [reflexivity|]. split; [reflexivity|].
    exists ai_response. split; [reflexivity | apply startswith_refl].
  - split; [reflexivity|]. split; [reflexivity|].
    eexists. split; [reflexivity|]. apply startswith_app.
Qed.
End FollowUps.

(** * Further properties *)

(** ** The pattern-based classifier: range, floor and evidence *)

Section PatternClassifierMore.
Import PyStr PyNum Regex Rel IntentClassifier.

Lemma _calculate_score_no_match (message : string) (patterns : list regex) :
  filter (fun p => compiled_search p message) patterns = [] ->
  _calculate_score message patterns == 0.
Proof.
  intros H. unfold _calculate_score. rewrite H. cbn [List.length].
  set (f := py_max (1 # 2) (1 - of_nat (String.length message) / 200)).
  assert (Hb : (if Nat.ltb 0 (List.length patterns)
                then of_nat 0 / of_nat (List.length patterns) else 0) == 0).
  { destruct (Nat.ltb 0 (List.length patterns)); [|reflexivity].
    unfold Qdiv. apply Qmult_0_l. }
  assert (Hy : (if Nat.ltb 0 (List.length patterns)
                then of_nat 0 / of_nat (List.length patterns) else 0) * f == 0).
  { rewrite Hb. apply Qmult_0_l. }
  unfold py_min.
  destruct (Qltb _ 1) eqn:E; [exact Hy|].
  apply Qltb_false in E. rewrite Hy in E. exfalso. apply E. reflexivity.
Qed.

Lemma score_evidence (message : string) (patterns : list regex) :
  1 # 10 <= _calculate_score message patterns ->
  exists p, In p patterns /\ compiled_search p message = true.
Proof.
  intros H.
  destruct (filter (fun p => compiled_search p message) patterns)
    as [|p rest] eqn:E.
  - apply _calculate_score_no_match in E. rewrite E in H.
    exfalso. apply H. reflexivity.
  - exists p. apply (filter_In (fun p => compiled_search p message)).
    rewrite E. now left.
Qed.

(** What [classify_intent] returns on a message that is not blank: a
    pair of the dictionary [scores] whose score is at least 0.1, or the
    default. *)
Lemma classify_intent_cases (m : string) :
  blank m = false ->
  classify_intent m = ("query", 1 # 10) \/
  exists patterns,
    In (fst (classify_intent m), patterns) pattern_table /\
    snd (classify_intent m) = _calculate_score (lower (strip m)) patterns /\
    1 # 10 <= snd (classify_intent m).
Proof.
  intros Hb. unfold classify_intent. rewrite Hb.
  set (msg := lower (strip m)). unfold scores.
  destruct (max_by_score_first
              [ ("query", _calculate_score msg query_patterns);
                ("information", _calculate_score msg information_patterns);
                ("feedback", _calculate_score msg feedback_patterns) ]
              ("greetings", _calculate_score msg greeting_patterns))
    as (l1 & l2 & Heq & _ & _).
  destruct (max_by_score _ _) as [i c].
  destruct (Qltb c (1 # 10)) eqn:E; [now left|]. right.
  apply Qltb_false in E.
  assert (Hin : In (i, c)
                   [ ("greetings", _calculate_score msg greeting_patterns);
                     ("query", _calculate_score msg query_patterns);
                     ("information", _calculate_score msg information_patterns);
                     ("feedback", _calculate_score msg feedback_patterns) ]).
  { rewrite Heq. apply in_or_app. right. now left. }
  cbn [fst snd]. unfold pattern_table.
  destruct Hin as [H|[H|[H|[H|[]]]]]; injection H as <- <-;
    eexists; (split; [|split; [reflexivity | exact E]]); simpl; tauto.
Qed.

(** X1.  The pattern-based classifier always answers with one of the four
    intents and a confidence between 0 and 1. *)
Theorem X1_pattern_classify_range (m : string) :
  In (fst (classify_intent m)) ["greetings"; "query"; "information"; "feedback"]
  /\ 0 <= snd (classify_intent m) <= 1.
Proof. apply pattern_classify_range. Qed.

(** X2.  The confidence of the pattern-based classifier is 0 on a blank
    message and at least 0.1 on every other message: a score below the
    threshold is replaced by the default ([query], 0.1). *)
Theorem X2_pattern_confidence_floor (m : string) :
  if blank m then classify_intent m = ("query", 0)
  else 1 # 10 <= snd (classify_intent m).
Proof.
  destruct (blank m) eqn:Hb.
  - unfold classify_intent. now rewrite Hb.
  - destruct (classify_intent_cases m Hb) as [H|(patterns & _ & _ & H)].
    + rewrite H. apply Qle_refl.
    + exact H.
Qed.

(** X3.  The pattern-based classifier answers [greetings], [information]
    or [feedback] only on evidence: some pattern of that intent matches
    the stripped and lowercased message, and the confidence is the score
    of that intent. *)
Theorem X3_pattern_intent_has_evidence (m i : string) (c : Q) :
  classify_intent m = (i, c) ->
  i <> "query" ->
  exists patterns p,
    In (i, patterns) pattern_table /\
    In p patterns /\
    compiled_search p (lower (strip m)) = true /\
    c = _calculate_score (lower (strip m)) patterns.
Proof.
  intros Hr Hi.
  destruct (blank m) eqn:Hb.
  { unfold classify_intent in Hr. rewrite Hb in Hr.
    injection Hr as <- _. now elim Hi. }
  destruct (classify_intent_cases m Hb) as [H|(patterns & Hin & Hc & Hle)].
  { rewrite H in Hr. injection Hr as <- _. now elim Hi. }
  rewrite Hr in Hin, Hc, Hle. cbn [fst snd] in Hin, Hc, Hle.
  rewrite Hc in Hle. apply score_evidence in Hle.
  destruct Hle as (p & Hp & Hs).
  exists patterns, p. repeat split; assumption.
Qed.

Lemma X3_witness :
  exists patterns p,
    In ("greetings", patterns) pattern_table /\
    In p patterns /\
    compiled_search p (lower (strip " Hello! ")) = true /\
    388 # 1400 = _calculate_score (lower (strip " Hello! ")) patterns.
Proof.
  apply (X3_pattern_intent_has_evidence " Hello! " "greetings" (388 # 1400)).
  - vm_compute. reflexivity.
  - discriminate.
Defined.
End PatternClassifierMore.

(** ** The generative classifier: what is parsed from a reply *)

Section GenerativeClassifierMore.
Import PyStr PyNum Regex Gateway AIIntentClassifier.
Local Open Scope string_scope.

Lemma filter_head {A : Type} (f : A -> bool) (l : list A) (x : A)
    (rest : list A) :
  filter f l = x :: rest ->
  exists l1 l2,
    l = (l1 ++ x :: l2)%list /\ Forall (fun y => f y = false) l1
    /\ f x = true.
Proof.
  induction l as [|y l IH]; simpl; [discriminate|].
  destruct (f y) eqn:E.
  - intros H. injection H as -> _.
    exists [], l. repeat split; [constructor | exact E].
  - intros H. destruct (IH H) as (l1 & l2 & -> & H1 & H2).
    exists (y :: l1), l2. repeat split; [constructor; assumption | exact H2].
Qed.

Lemma filter_nil {A : Type} (f : A -> bool) (l : list A) :
  filter f l = [] <-> Forall (fun y => f y = false) l.
Proof.
  induction l as [|y l IH]; simpl.
  - split; [constructor | reflexivity].
  - destruct (f y) eqn:E; split.
    + discriminate.
    + intros H. inversion H; congruence.
    + intros H. constructor; [exact E | now apply IH].
    + intros H. inversion H; subst. now apply IH.
Qed.

Lemma generative_classify_total (json_loads : string -> option json)
    (W : Type) (backend : Request -> W -> (Exn + string) * W) (w : W)
    (m : string) :
  let o := run backend (classify_intent json_loads m) w in
  (List.length (calls o) <= 1)%nat /\
  exists i c,
    result o = inr (i, c) /\
    In i ["greetings"; "query"; "information"; "feedback"] /\ 0 <= c.
Proof.
  cbv zeta. split.
  - unfold classify_intent. destruct (blank m); [cbn; lia|].
    unfold chat_completion. cbn [try_except bind run result final calls].
    destruct (backend (classification_request m) w) as [[e|response] w'];
      cbn [try_except bind run result final calls]; [cbn; lia|].
    destruct (_parse_ai_response json_loads response); cbn; lia.
  - apply generative_classify_sound.
Qed.

(** X4.  Whatever the backend does and whatever [json.loads] returns, the
    generative [classify_intent] makes at most one call, does not raise,
    and answers with one of the four intents and a confidence that is not
    negative. *)
Theorem X4_generative_classify_total (json_loads : string -> option json)
    (W : Type) (backend : Request -> W -> (Exn + string) * W) (w : W)
    (m : string) :
  let o := run backend (classify_intent json_loads m) w in
  (List.length (calls o) <= 1)%nat /\
  exists i c,
    result o = inr (i, c) /\
    In i ["greetings"; "query"; "information"; "feedback"] /\ 0 <= c.
Proof. apply generative_classify_total. Qed.





(** X7.  The text-based extraction looks for the four labels as pieces of
    the lowercased reply, in the order greetings, query, information,
    feedback.  It yields nothing exactly when none occurs; otherwise its
    intent is the first label that occurs. *)
Theorem X7_text_label (response : string) :
  match _extract_intent_from_text response with
  | None =>
      Forall (fun label => contains label (lower response) = false)
             ["greetings"; "query"; "information"; "feedback"]
  | Some r =>
      exists before after,
        ["greetings"; "query"; "information"; "feedback"]
        = (before ++ intent r :: after)%list /\
        Forall (fun label => contains label (lower response) = false) before /\
        contains (intent r) (lower response) = true
  end.
Proof.
  unfold _extract_intent_from_text.
  destruct (filter (fun intent => contains intent (lower response)) intent_keys)
    as [|i rest] eqn:E.
  - now apply filter_nil in E.
  - apply filter_head in E. cbn [intent]. exact E.
Qed.

(** X8.  An embedded object that cannot be decoded, or whose [intent] is
    a list or an object, ends the parsing with no result: the text of the
    reply is not scanned for labels, and [classify_intent] answers
    ([query], 0.5). *)
Theorem X8_undecodable_object (json_loads : string -> option json)
    (response json_str : string) :
  search false json_pattern (strip response) = Some json_str ->
  match json_loads json_str with
  | None => True
  | Some (JObj fields) =>
      match lookup "intent" fields with
      | Some (JArr _) | Some (JObj _) => True
      | _ => False
      end
  | Some _ => False
  end ->
  _parse_ai_response json_loads response = None /\
  forall (W : Type) (backend : Request -> W -> (Exn + string) * W) (w : W)
         (m : string),
    blank m = false ->
    fst (backend (classification_request m) w) = inr response ->
    result (run backend (classify_intent json_loads m) w)
    = inr ("query", 1 # 2).
Proof.
  intros Hs Hl.
  assert (Hp : _parse_ai_response json_loads response = None).
  { unfold _parse_ai_response, parse_body. rewrite Hs.
    destruct (json_loads json_str) as [[| | | | |fields]|];
      try contradiction; [|reflexivity].
    destruct (lookup "intent" fields) as [[| | | | |]|];
      try contradiction; reflexivity. }
  split; [exact Hp|].
  intros W backend w m Hb Hr.
  unfold classify_intent. rewrite Hb. unfold chat_completion.
  cbn [try_except bind run result final calls].
  destruct (backend (classification_request m) w) as [r w'].
  cbn [fst] in Hr. subst r.
  cbn [try_except bind run result final calls]. now rewrite Hp.
Qed.

Lemma X8_witness :
  let response := "{" ++ dq ++ "intent" ++ dq ++ ": feedback}" in
  _parse_ai_response (fun _ => None) response = None /\
  result (run (answering response) (classify_intent (fun _ => None) "thanks") tt)
  = inr ("query", 1 # 2).
Proof.
  cbv zeta.
  destruct (X8_undecodable_object (fun _ => None)
              ("{" ++ dq ++ "intent" ++ dq ++ ": feedback}")
              ("{" ++ dq ++ "intent" ++ dq ++ ": feedback}"))
    as [H1 H2].
  - vm_compute. reflexivity.
  - exact I.
  - split; [exact H1|].
    apply (H2 unit (answering ("{" ++ dq ++ "intent" ++ dq ++ ": feedback}"))
              tt "thanks"); reflexivity.
Defined.
End GenerativeClassifierMore.

(** ** Words and keywords *)

Section Words.
Import PyStr PyNum Regex Rel IntentClassifier.

Lemma lstrip_by_length (p : ascii -> bool) (s : string) :
  (String.length (lstrip_by p s) <= String.length s)%nat.
Proof.
  induction s as [|c s IH]; simpl; [lia|].
  destruct (p c); simpl; lia.
Qed.

Lemma lstrip_by_idem (p : ascii -> bool) (s : string) :
  lstrip_by p (lstrip_by p s) = lstrip_by p s.
Proof.
  induction s as [|c s IH]; simpl; [reflexivity|].
  destruct (p c) eqn:E; [exact IH | simpl; now rewrite E].
Qed.

Lemma take_length_lstrip (p : ascii -> bool) (s : string) :
  take (String.length s - String.length (lstrip_by p s)) s = take_while p s.
Proof.
  induction s as [|c s IH]; [reflexivity|].
  cbn [lstrip_by take_while]. destruct (p c).
  - pose proof (lstrip_by_length p s) as Hl. cbn [String.length].
    replace (S (String.length s) - String.length (lstrip_by p s))%nat
      with (S (String.length s - String.length (lstrip_by p s)))%nat by lia.
    cbn [take]. now rewrite IH.
  - rewrite Nat.sub_diag. reflexivity.
Qed.

Lemma all_str_take_while (p : ascii -> bool) (s : string) :
  all_str p (take_while p s) = true.
Proof.
  induction s as [|c s IH]; simpl; [reflexivity|].
  destruct (p c) eqn:E; simpl; [now rewrite E | reflexivity].
Qed.

Lemma last_char_all (p : ascii -> bool) (t : string) :
  forall c,
    p c = true -> all_str p t = true ->
    exists c', last_char (String c t) = Some c' /\ p c' = true.
Proof.
  induction t as [|y t IH]; intros c Hc Ht.
  - exists c. split; [reflexivity | exact Hc].
  - simpl in Ht. apply andb_prop in Ht. destruct Ht as [Hy Ht].
    destruct (IH y Hy Ht) as (c' & Hl & Hp).
    exists c'. split; [exact Hl | exact Hp].
Qed.

Lemma take_while_true (p : ascii -> bool) (c : ascii) (s : string) :
  p c = true -> take_while p (String c s) = String c (take_while p s).
Proof. intros H. simpl. now rewrite H. Qed.

Lemma take_while_false (p : ascii -> bool) (c : ascii) (s : string) :
  p c = false -> take_while p (String c s) = EmptyString.
Proof. intros H. simpl. now rewrite H. Qed.

Lemma lstrip_by_true (p : ascii -> bool) (c : ascii) (s : string) :
  p c = true -> lstrip_by p (String c s) = lstrip_by p s.
Proof. intros H. simpl. now rewrite H. Qed.

Lemma lstrip_by_false (p : ascii -> bool) (c : ascii) (s : string) :
  p c = false -> lstrip_by p (String c s) = String c s.
Proof. intros H. simpl. now rewrite H. Qed.

(** The pieces between separators. *)
Lemma split_by_cons (sep : ascii -> bool) (c : ascii) (s : string) :
  split_by sep (String c s)
  = if sep c then split_by sep s
    else
      match s with
      | EmptyString => [String c EmptyString]
      | String c' _ =>
          if sep c' then String c EmptyString :: split_by sep s
          else
            match split_by sep s with
            | h :: t => String c h :: t
            | [] => [String c EmptyString]
            end
      end.
Proof. reflexivity. Qed.

Lemma split_by_head (p : ascii -> bool) (s : string) :
  forall c,
    p c = true ->
    split_by (fun x => negb (p x)) (String c s)
    = take_while p (String c s)
      :: split_by (fun x => negb (p x)) (lstrip_by p (String c s)).
Proof.
  induction s as [|y s IH]; intros c Hc.
  - simpl. now rewrite Hc.
  - rewrite split_by_cons. cbv beta. rewrite Hc. cbn [negb].
    rewrite (take_while_true p c _ Hc), (lstrip_by_true p c _ Hc).
    destruct (p y) eqn:Hy; cbn [negb].
    + now rewrite (IH y Hy).
    + now rewrite (take_while_false p y _ Hy), (lstrip_by_false p y _ Hy).
Qed.

Lemma split_by_skip (sep : ascii -> bool) (c : ascii) (s : string) :
  sep c = true -> split_by sep (String c s) = split_by sep s.
Proof. intros H. rewrite split_by_cons. now rewrite H. Qed.

Lemma split_by_pieces (sep : ascii -> bool) (s : string) :
  Forall (fun w => w <> EmptyString /\ all_str (fun x => negb (sep x)) w = true)
         (split_by sep s).
Proof.
  induction s as [|c s IH]; [constructor|].
  rewrite split_by_cons. destruct (sep c) eqn:Hc; [exact IH|].
  assert (One : String c EmptyString <> EmptyString
                /\ all_str (fun x => negb (sep x)) (String c EmptyString) = true).
  { split; [discriminate|]. simpl. now rewrite Hc. }
  destruct s as [|y s'].
  - constructor; [exact One | constructor].
  - destruct (sep y) eqn:Hy.
    + constructor; [exact One | exact IH].
    + destruct (split_by sep (String y s')) as [|h t].
      * constructor; [exact One | constructor].
      * inversion IH as [|? ? [Hh1 Hh2] Ht]; subst.
        constructor; [|exact Ht]. split; [discriminate|].
        simpl. now rewrite Hc, Hh2.
Qed.

(** The pattern of a word, matched at a position: it matches exactly at
    the start of a run of word characters, and takes the whole run. *)
Lemma star_word_run (s : string) (c : ascii) :
  is_word c = true ->
  rmatch false (Star WordChar) (Some c) s
         (fun p e => rmatch false WordB p e (fun _ e' => Some e'))
  = Some (lstrip_by is_word s).
Proof.
  intros Hc.
  set (k := fun (p : option ascii) (e : string) =>
              rmatch false WordB p e (fun _ e' => Some e')).
  set (loop :=
         fix loop (fuel : nat) (p : option ascii) (t : string)
             {struct fuel} : option string :=
           match fuel with
           | O => k p t
           | S f =>
               match rmatch false WordChar p t
                       (fun p' t' =>
                          if Nat.ltb (String.length t') (String.length t)
                          then loop f p' t' else None) with
               | Some y => Some y
               | None => k p t
               end
           end).
  change (loop (S (String.length s)) (Some c) s = Some (lstrip_by is_word s)).
  assert (K : forall x t, is_word x = true ->
                          is_word_opt (next_char t) = false ->
                          k (Some x) t = Some t).
  { intros x t Hx Ht. unfold k. simpl. now rewrite Hx, Ht. }
  assert (L : forall t fuel x,
             is_word x = true -> (String.length t < fuel)%nat ->
             loop fuel (Some x) t = Some (lstrip_by is_word t)).
  { induction t as [|y t IH]; intros fuel x Hx Hf.
    - destruct fuel as [|f]; [simpl in Hf; lia|].
      simpl. now apply K.
    - destruct fuel as [|f]; [simpl in Hf; lia|].
      change (loop (S f) (Some x) (String y t))
        with (match rmatch false WordChar (Some x) (String y t)
                      (fun p' t' =>
                         if Nat.ltb (String.length t')
                                    (String.length (String y t))
                         then loop f p' t' else None) with
              | Some z => Some z
              | None => k (Some x) (String y t)
              end).
      cbn [rmatch one lstrip_by].
      destruct (is_word y) eqn:Hy.
      + assert (Hlt : Nat.ltb (String.length t) (String.length (String y t))
                      = true).
        { apply Nat.ltb_lt. simpl. lia. }
        rewrite Hlt. rewrite (IH f y Hy); [reflexivity|].
        simpl in Hf. lia.
      + apply K; [exact Hx|]. simpl. exact Hy. }
  apply L; [exact Hc | lia].
Qed.

Lemma word_match (prev : option ascii) (s : string) :
  rmatch false word_pattern prev s (fun _ e => Some e)
  = if (negb (is_word_opt prev) && is_word_opt (next_char s))%bool
    then Some (lstrip_by is_word s) else None.
Proof.
  unfold word_pattern, Plus. cbn [seqs].
  change (rmatch false (Seq WordB (Seq (Seq WordChar (Star WordChar)) WordB))
                 prev s (fun _ e => Some e))
    with (if xorb (is_word_opt prev) (is_word_opt (next_char s))
          then one is_word s
                   (fun p s1 =>
                      rmatch false (Star WordChar) p s1
                             (fun p2 s2 =>
                                rmatch false WordB p2 s2 (fun _ e => Some e)))
          else None).
  destruct s as [|c s]; cbn [next_char is_word_opt one lstrip_by].
  - destruct (is_word_opt prev); reflexivity.
  - destruct (is_word c) eqn:Hc.
    + destruct (is_word_opt prev); cbn [xorb negb andb]; [reflexivity|].
      now apply star_word_run.
    + destruct (is_word_opt prev); reflexivity.
Qed.

Lemma findall_word_runs (n : nat) :
  forall (s : string) (fuel : nat) (prev : option ascii),
    (String.length s <= n)%nat -> (String.length s < fuel)%nat ->
    findall_from fuel false word_pattern prev s
    = split_by not_word (if is_word_opt prev then lstrip_by is_word s else s).
Proof.
  induction n as [|n IH]; intros s fuel prev Hn Hf.
  - destruct s; [|simpl in Hn; lia].
    destruct fuel as [|f]; [simpl in Hf; lia|].
    cbn [findall_from search_from]. rewrite word_match.
    cbn [next_char is_word_opt]. rewrite andb_false_r.
    now destruct (is_word_opt prev).
  - destruct fuel as [|f]; [lia|].
    destruct s as [|c s].
    { cbn [findall_from search_from]. rewrite word_match.
      cbn [next_char is_word_opt]. rewrite andb_false_r.
      now destruct (is_word_opt prev). }
    simpl in Hn, Hf.
    destruct (negb (is_word_opt prev) && is_word c)%bool eqn:Hm.
    + apply andb_prop in Hm. destruct Hm as [Hp Hc].
      apply negb_true_iff in Hp. rewrite Hp.
      cbn [findall_from search_from]. rewrite word_match.
      cbn [next_char is_word_opt]. rewrite Hp, Hc. cbn [negb andb].
      unfold matched_text. cbn [fst snd].
      rewrite take_length_lstrip.
      destruct (last_char_all is_word (take_while is_word s) c Hc
                  (all_str_take_while is_word s)) as (c' & Hl & Hc').
      assert (Htw : take_while is_word (String c s)
                    = String c (take_while is_word s)).
      { simpl. now rewrite Hc. }
      rewrite Htw, Hl.
      pose proof (lstrip_by_length is_word s) as Hlen.
      assert (Hls : lstrip_by is_word (String c s) = lstrip_by is_word s).
      { simpl. now rewrite Hc. }
      rewrite Hls.
      rewrite (IH (lstrip_by is_word s) f (Some c')); [|lia|lia].
      cbn [is_word_opt]. rewrite Hc', lstrip_by_idem.
      unfold not_word. rewrite (split_by_head is_word s c Hc).
      now rewrite Htw, Hls.
    + assert (Hstep : findall_from (S f) false word_pattern prev (String c s)
                      = findall_from (S f) false word_pattern (Some c) s).
      { cbn [findall_from]. cbn [search_from]. rewrite word_match.
        cbn [next_char is_word_opt]. now rewrite Hm. }
      rewrite Hstep, (IH s (S f) (Some c)); [|lia|lia].
      cbn [is_word_opt].
      destruct (is_word c) eqn:Hc.
      * rewrite andb_true_r in Hm. apply negb_false_iff in Hm. rewrite Hm.
        simpl. now rewrite Hc.
      * assert (Hsep : not_word c = true).
        { unfold not_word. now rewrite Hc. }
        destruct (is_word_opt prev).
        -- cbn [lstrip_by]. rewrite Hc. now rewrite split_by_skip.
        -- now rewrite split_by_skip.
Qed.

Lemma findall_words (s : string) :
  findall false word_pattern s = split_by not_word s.
Proof.
  unfold findall.
  now rewrite (findall_word_runs (String.length s) s
                 (S (String.length s)) None); [|lia|lia].
Qed.

Lemma all_str_not_not_word (w : string) :
  all_str (fun x => negb (not_word x)) w = true -> all_str is_word w = true.
Proof.
  induction w as [|c w IH]; [reflexivity|].
  simpl. intros H. apply andb_prop in H. destruct H as [Hc H].
  unfold not_word in Hc. rewrite negb_involutive in Hc.
  now rewrite Hc, IH.
Qed.

(** X9.  The words [extract_keywords] works on, found by the pattern of a
    word, are the pieces of the lowercased message between the characters
    that are not word characters; the keywords are the first ten of them
    that are longer than 2 characters and are not stop words.  Both
    classifiers compute that list. *)
Theorem X9_keywords_are_word_runs (m : string) :
  findall false word_pattern (lower m) = split_by not_word (lower m) /\
  extract_keywords m
  = firstn 10
      (filter (fun w => (negb (is_stop_word w)
                         && Nat.ltb 2 (String.length w))%bool)
              (split_by not_word (lower m))) /\
  AIIntentClassifier.extract_keywords m = extract_keywords m.
Proof.
  split; [apply findall_words|]. split; [|reflexivity].
  unfold extract_keywords. now rewrite findall_words.
Qed.

(** X10.  Every keyword is in lower case and is made of word characters
    only (letters, digits, underscore): it holds no white space and no
    punctuation.  A message without a word of three characters or more
    that is not a stop word, a blank message among them, has no
    keywords. *)
Theorem X10_keywords_are_words (m : string) :
  Forall (fun w => all_str is_word w = true /\ lower w = w)
         (extract_keywords m) /\
  (Forall (fun w => (String.length w <= 2)%nat \/ is_stop_word w = true)
          (split_by not_word (lower m)) ->
   extract_keywords m = []).
Proof.
  unfold extract_keywords. rewrite findall_words.
  split.
  - apply Forall_forall. intros w Hw.
    apply (Subseq_In _ _ _ (Subseq_firstn _ _)) in Hw.
    apply filter_In in Hw. destruct Hw as [Hw _].
    split.
    + pose proof (split_by_pieces not_word (lower m)) as Hp.
      rewrite Forall_forall in Hp. destruct (Hp w Hw) as [_ Hall].
      now apply all_str_not_not_word.
    + apply lower_fixed.
      pose proof (findall_chars (fun c => lower_char c = c) false
                    word_pattern (lower m) (lower_chars m)) as Hall.
      rewrite findall_words, Forall_forall in Hall. now apply Hall.
  - intros H.
    replace (filter _ (split_by not_word (lower m))) with (@nil string);
      [reflexivity|].
    symmetry. induction H as [|w l Hw Hl IH]; [reflexivity|].
    simpl. rewrite IH.
    destruct Hw as [Hw|Hw].
    + apply Nat.ltb_ge in Hw. rewrite Hw. now rewrite andb_false_r.
    + now rewrite Hw.
Qed.

Lemma X10_witness :
  extract_keywords "Is it on?" = [].
Proof.
  apply (proj2 (X10_keywords_are_words "Is it on?")).
  vm_compute. repeat constructor; now right.
Defined.
End Words.

(** ** Complexity and descriptions *)

Section ComplexityAndDescriptions.
Import PyStr PyNum Regex Rel Gateway.
Local Open Scope string_scope.

Lemma split_by_nonempty (sep : ascii -> bool) (c : ascii) (s : string) :
  sep c = false -> split_by sep (String c s) <> [].
Proof.
  intros Hc. rewrite split_by_cons, Hc.
  destruct s as [|y s']; [discriminate|].
  destruct (sep y); [discriminate|].
  destruct (split_by sep (String y s')); discriminate.
Qed.

Lemma split_by_all (sep : ascii -> bool) (s : string) :
  all_str sep s = true -> split_by sep s = [].
Proof.
  induction s as [|c s IH]; [reflexivity|].
  simpl all_str. intros H. apply andb_prop in H. destruct H as [Hc H].
  rewrite split_by_skip; [now apply IH | exact Hc].
Qed.

(** Splitting a text at a separator splits its list of pieces. *)
Lemma split_by_app (sep : ascii -> bool) (a b : string) (c : ascii) :
  sep c = true ->
  split_by sep (a ++ String c b) = (split_by sep a ++ split_by sep b)%list.
Proof.
  intros Hc. induction a as [|x a IH].
  - simpl append. now rewrite split_by_skip.
  - change (String x a ++ String c b) with (String x (a ++ String c b)).
    rewrite !(split_by_cons sep x).
    destruct (sep x) eqn:Hx; [exact IH|].
    destruct a as [|y a'].
    + cbn [append]. rewrite Hc.
      now rewrite (split_by_skip sep c b Hc).
    + change (String y a' ++ String c b)
        with (String y (a' ++ String c b)) in *.
      destruct (sep y) eqn:Hy.
      * rewrite IH, ?Hy. reflexivity.
      * rewrite IH, ?Hy.
        destruct (split_by sep (String y a')) as [|h t] eqn:E.
        -- now apply split_by_nonempty in E.
        -- reflexivity.
Qed.

Lemma split_by_lpad (sep : ascii -> bool) (l m : string) :
  all_str sep l = true -> split_by sep (l ++ m) = split_by sep m.
Proof.
  induction l as [|c l IH]; [reflexivity|].
  simpl all_str. intros H. apply andb_prop in H. destruct H as [Hc H].
  change (String c l ++ m) with (String c (l ++ m)).
  rewrite split_by_skip; [now apply IH | exact Hc].
Qed.

Lemma split_by_rpad (sep : ascii -> bool) (m r : string) :
  all_str sep r = true -> split_by sep (m ++ r) = split_by sep m.
Proof.
  destruct r as [|c r].
  - intros _. f_equal. induction m as [|x m IH]; simpl; [reflexivity|].
    now rewrite IH.
  - simpl all_str. intros H. apply andb_prop in H. destruct H as [Hc H].
    rewrite (split_by_app sep m r c Hc), (split_by_all sep r H).
    apply app_nil_r.
Qed.

(** X11.  The complexity of a message depends on its words only: white
    space added in front of it or behind it does not change the answer,
    and a message of white space only is [simple].  The answer is always
    one of [simple], [moderate] and [complex], and both classifiers give
    the same one. *)
Theorem X11_complexity_ignores_padding (l m r : string) :
  all_str isspace l = true ->
  all_str isspace r = true ->
  IntentClassifier.analyze_message_complexity (l ++ m ++ r)
  = IntentClassifier.analyze_message_complexity m /\
  IntentClassifier.analyze_message_complexity l = "simple" /\
  In (IntentClassifier.analyze_message_complexity m)
     ["simple"; "moderate"; "complex"] /\
  AIIntentClassifier.analyze_message_complexity m
  = IntentClassifier.analyze_message_complexity m.
Proof.
  intros Hl Hr. unfold IntentClassifier.analyze_message_complexity, split_ws.
  split; [|split; [|split]].
  - now rewrite (split_by_lpad isspace l _ Hl), (split_by_rpad isspace m r Hr).
  - now rewrite (split_by_all isspace l Hl).
  - destruct (Nat.leb _ 3); [now left|].
    destruct (Nat.leb _ 10); [now right; left | now right; right; left].
  - reflexivity.
Qed.

Lemma X11_witness :
  IntentClassifier.analyze_message_complexity ("  " ++ "how are you" ++ " ")
  = IntentClassifier.analyze_message_complexity "how are you".
Proof.
  apply (X11_complexity_ignores_padding "  " "how are you" " "); reflexivity.
Defined.

(** X12.  Joining two messages with a white space character adds their
    word counts; so a message that is [complex] stays [complex] when text
    is added after a space, and a joined message that is [simple] has two
    [simple] parts. *)
Theorem X12_complexity_of_joined (a b : string) (c : ascii) :
  isspace c = true ->
  List.length (split_ws (a ++ String c b))
  = (List.length (split_ws a) + List.length (split_ws b))%nat /\
  (IntentClassifier.analyze_message_complexity a = "complex" ->
   IntentClassifier.analyze_message_complexity (a ++ String c b) = "complex") /\
  (IntentClassifier.analyze_message_complexity (a ++ String c b) = "simple" ->
   IntentClassifier.analyze_message_complexity a = "simple" /\
   IntentClassifier.analyze_message_complexity b = "simple").
Proof.
  intros Hc.
  assert (Hlen : List.length (split_ws (a ++ String c b))
                 = (List.length (split_ws a) + List.length (split_ws b))%nat).
  { unfold split_ws. rewrite (split_by_app isspace a b c Hc).
    apply length_app. }
  split; [exact Hlen|].
  unfold IntentClassifier.analyze_message_complexity. rewrite Hlen.
  set (na := List.length (split_ws a)). set (nb := List.length (split_ws b)).
  split.
  - destruct (Nat.leb_spec na 3); [discriminate|].
    destruct (Nat.leb_spec na 10); [discriminate|]. intros _.
    destruct (Nat.leb_spec (na + nb) 3); [lia|].
    destruct (Nat.leb_spec (na + nb) 10); [lia | reflexivity].
  - destruct (Nat.leb_spec (na + nb) 3) as [H|H].
    + intros _.
      destruct (Nat.leb_spec na 3); [|lia].
      destruct (Nat.leb_spec nb 3); [|lia]. split; reflexivity.
    + destruct (Nat.leb_spec (na + nb) 10); discriminate.
Qed.

Lemma X12_witness :
  List.length (split_ws ("what is" ++ String " " "the capital of France"))
  = (List.length (split_ws "what is")
     + List.length (split_ws "the capital of France"))%nat.
Proof.
  apply (X12_complexity_of_joined "what is" "the capital of France" " ").
  reflexivity.
Defined.

Lemma description_known (intent : string) :
  (IntentClassifier.get_intent_description intent = "Unknown intent" <->
   ~ In intent ["greetings"; "query"; "information"; "feedback"]) /\
  (AIIntentClassifier.get_intent_description intent = "Unknown intent" <->
   ~ In intent ["greetings"; "query"; "information"; "feedback"]).
Proof.
  unfold IntentClassifier.get_intent_description,
    AIIntentClassifier.get_intent_description.
  cbn [IntentClassifier.dict_get IntentClassifier.descriptions
       AIIntentClassifier.category_get AIIntentClassifier.intent_categories].
  destruct (String.eqb_spec "greetings" intent) as [<-|H1].
  { split; (split; [discriminate | intros H; elim H; simpl; tauto]). }
  destruct (String.eqb_spec "query" intent) as [<-|H2].
  { split; (split; [discriminate | intros H; elim H; simpl; tauto]). }
  destruct (String.eqb_spec "information" intent) as [<-|H3].
  { split; (split; [discriminate | intros H; elim H; simpl; tauto]). }
  destruct (String.eqb_spec "feedback" intent) as [<-|H4].
  { split; (split; [discriminate | intros H; elim H; simpl; tauto]). }
  split; (split; [intros _ [H|[H|[H|[H|[]]]]]; congruence | reflexivity]).
Qed.

(** X13.  [get_intent_description], in either classifier, gives the text
    "Unknown intent" exactly for a string that is not one of the four
    intents; the intent that the pattern-based classifier returns for a
    message always has a description of its own. *)
Theorem X13_description_known (intent m : string) :
  (IntentClassifier.get_intent_description intent = "Unknown intent" <->
   ~ In intent ["greetings"; "query"; "information"; "feedback"]) /\
  (AIIntentClassifier.get_intent_description intent = "Unknown intent" <->
   ~ In intent ["greetings"; "query"; "information"; "feedback"]) /\
  IntentClassifier.get_intent_description
    (fst (IntentClassifier.classify_intent m)) <> "Unknown intent".
Proof.
  destruct (description_known intent) as [H1 H2].
  split; [exact H1|]. split; [exact H2|].
  intros H.
  apply (proj1 (description_known (fst (IntentClassifier.classify_intent m))))
    in H.
  apply H. apply pattern_classify_range.
Qed.
End ComplexityAndDescriptions.

(** ** The analysis of a reply *)

Section AnalysisFacts.
Import PyStr PyNum Rel Gateway ChainQueryGenerator.
Local Open Scope string_scope.

Lemma lower_lower (s : string) : lower (lower s) = lower s.
Proof.
  unfold lower. induction s as [|c s IH]; simpl; [reflexivity|].
  now rewrite lower_char_idem, IH.
Qed.

Lemma strip_strip (s : string) : strip (strip s) = strip s.
Proof. apply strip_by_idem. Qed.

Lemma strip_lower_strip (s : string) :
  strip (lower (strip s)) = lower (strip s).
Proof. now rewrite strip_lower, strip_strip. Qed.

Lemma split_on_nonempty (sep : ascii) (s : string) : split_on sep s <> [].
Proof.
  induction s as [|c s IH]; simpl; [discriminate|].
  destruct (Ascii.eqb c sep); [discriminate|].
  destruct (split_on sep s); discriminate.
Qed.

Lemma fold_left_invariant {A B : Type} (P : A -> Prop) (f : A -> B -> A)
    (l : list B) :
  (forall a b, P a -> P (f a b)) -> forall a, P a -> P (fold_left f l a).
Proof.
  intros Hf. induction l as [|b l IH]; intros a Ha; simpl; [exact Ha|].
  apply IH, Hf, Ha.
Qed.

Lemma default_analysis_normalized : normalized default_analysis.
Proof.
  constructor; cbn; repeat split; try reflexivity; try discriminate.
  repeat constructor.
Qed.

Lemma _parse_analysis_normalized (response : string) :
  normalized (_parse_analysis response).
Proof.
  unfold _parse_analysis.
  apply fold_left_invariant; [|apply default_analysis_normalized].
  intros a line [Ht Hto Hc Hcm He].
  destruct (startswith "Type:" line).
  { constructor; cbn [type topics complexity completeness exploration];
      try assumption.
    split; [apply lower_lower | apply strip_lower_strip]. }
  destruct (startswith "Topics:" line).
  { constructor; cbn [type topics complexity completeness exploration];
      try assumption.
    split.
    - intros H. apply map_eq_nil in H. now apply split_on_nonempty in H.
    - apply Forall_forall. intros t Hin. apply in_map_iff in Hin.
      destruct Hin as (x & <- & _). apply strip_strip. }
  destruct (startswith "Complexity:" line).
  { constructor; cbn [type topics complexity completeness exploration];
      try assumption.
    split; [apply lower_lower | apply strip_lower_strip]. }
  destruct (startswith "Completeness:" line).
  { constructor; cbn [type topics complexity completeness exploration];
      try assumption.
    split; [apply lower_lower | apply strip_lower_strip]. }
  destruct (startswith "Exploration:" line).
  { constructor; cbn [type topics complexity completeness exploration];
      try assumption.
    apply strip_strip. }
  constructor; assumption.
Qed.

(** X14.  Whatever the reply, the characterization parsed from it is
    normalized: its category, complexity and completeness are in lower
    case and stripped of white space, its list of topics is not empty and
    every topic is stripped, and its exploration hint is stripped. *)
Theorem X14_parse_analysis_normalized (response : string) :
  let a := _parse_analysis response in
  lower (type a) = type a /\ strip (type a) = type a /\
  topics a <> [] /\ Forall (fun t => strip t = t) (topics a) /\
  lower (complexity a) = complexity a /\
  strip (complexity a) = complexity a /\
  lower (completeness a) = completeness a /\
  strip (completeness a) = completeness a /\
  strip (exploration a) = exploration a.
Proof.
  destruct (_parse_analysis_normalized response)
    as [[H1 H2] [H3 H4] [H5 H6] [H7 H8] H9].
  cbv zeta. repeat split; assumption.
Qed.



(** X16.  [_analyze_response] makes exactly one call and never raises:
    it returns the characterization parsed from the answer, or the default
    one when the call fails; in both cases the characterization is
    normalized, with a list of topics that is not empty. *)
Theorem X16_analyze_response_total (W : Type)
    (backend : Request -> W -> (Exn + string) * W) (w : W)
    (ai_response intent : string) :
  let o := run backend (_analyze_response ai_response intent) w in
  calls o = [analysis_request ai_response intent] /\
  final o = snd (backend (analysis_request ai_response intent) w) /\
  exists a,
    result o = inr a /\
    a = match fst (backend (analysis_request ai_response intent) w) with
        | inl _ => default_analysis
        | inr text => _parse_analysis text
        end /\
    topics a <> [] /\ lower (type a) = type a /\ strip (type a) = type a.
Proof.
  unfold _analyze_response, chat_completion.
  cbn [try_except bind run result final calls].
  destruct (backend (analysis_request ai_response intent) w) as [[e|text] w'];
    cbn [try_except bind run result final calls fst snd].
  - split; [reflexivity|]. split; [reflexivity|].
    exists default_analysis. split; [reflexivity|]. split; [reflexivity|].
    destruct default_analysis_normalized as [[H1 H2] [H3 _] _ _ _].
    repeat split; assumption.
  - split; [reflexivity|]. split; [reflexivity|].
    exists (_parse_analysis text). split; [reflexivity|].
    split; [reflexivity|].
    destruct (_parse_analysis_normalized text) as [[H1 H2] [H3 _] _ _ _].
    repeat split; assumption.
Qed.
End AnalysisFacts.

(** ** Splitting what was joined *)

Section JoinSplit.
Import PyStr.
Local Open Scope string_scope.

Lemma append_assoc (a b c : string) : (a ++ b) ++ c = a ++ (b ++ c).
Proof. induction a as [|x a IH]; simpl; [reflexivity | now rewrite IH]. Qed.

Lemma append_nil_r (a : string) : a ++ "" = a.
Proof. induction a as [|x a IH]; simpl; [reflexivity | now rewrite IH]. Qed.

Lemma has_char_app (c : ascii) (a b : string) :
  has_char c (a ++ b) = (has_char c a || has_char c b)%bool.
Proof.
  induction a as [|x a IH]; simpl; [reflexivity|].
  now rewrite IH, orb_assoc.
Qed.

Lemma split_on_none (sep : ascii) (q : string) :
  has_char sep q = false -> split_on sep q = [q].
Proof.
  induction q as [|x q IH]; simpl; [reflexivity|].
  intros H. apply orb_false_elim in H. destruct H as [Hx Hq].
  rewrite Hx, (IH Hq). reflexivity.
Qed.

Lemma split_on_app (sep : ascii) (q t : string) :
  has_char sep q = false ->
  split_on sep (q ++ String sep t) = q :: split_on sep t.
Proof.
  induction q as [|x q IH]; intros H.
  - simpl. now rewrite Ascii.eqb_refl.
  - simpl in H. apply orb_false_elim in H. destruct H as [Hx Hq].
    simpl. rewrite Hx, (IH Hq). reflexivity.
Qed.

Lemma join_cons (sep x y : string) (l : list string) :
  join sep (x :: y :: l) = x ++ sep ++ join sep (y :: l).
Proof. reflexivity. Qed.

(** [sep.join(l).split(sep)] gives [l] back when no element holds the
    separator. *)
Lemma split_on_join (sep : ascii) (l : list string) :
  l <> [] ->
  Forall (fun q => has_char sep q = false) l ->
  split_on sep (join (String sep "") l) = l.
Proof.
  induction l as [|x l IH]; intros Hne H; [now elim Hne|].
  inversion H as [|? ? Hx Hl]; subst.
  destruct l as [|y l].
  - simpl. now apply split_on_none.
  - rewrite join_cons. cbn [append].
    rewrite (split_on_app sep x _ Hx). f_equal.
    apply IH; [discriminate | exact Hl].
Qed.

Lemma has_char_join (c : ascii) (sep : string) (l : list string) :
  has_char c sep = false ->
  Forall (fun q => has_char c q = false) l ->
  has_char c (join sep l) = false.
Proof.
  intros Hs. induction l as [|x l IH]; intros H; [reflexivity|].
  inversion H as [|? ? Hx Hl]; subst.
  destruct l as [|y l]; [exact Hx|].
  rewrite join_cons, !has_char_app, Hx, Hs. now apply IH.
Qed.

Section Fixed.
Variable p : ascii -> bool.

Lemma rstrip_by_length (s : string) :
  (String.length (rstrip_by p s) <= String.length s)%nat.
Proof.
  induction s as [|c s IH]; simpl; [lia|].
  destruct (is_empty (rstrip_by p s) && p c)%bool; simpl; lia.
Qed.

Lemma lstrip_by_same_length (s : string) :
  String.length (lstrip_by p s) = String.length s -> lstrip_by p s = s.
Proof.
  destruct s as [|c s]; simpl; [reflexivity|].
  destruct (p c); [|reflexivity].
  pose proof (lstrip_by_length p s). lia.
Qed.

Lemma strip_by_fixed_parts (s : string) :
  strip_by p s = s -> lstrip_by p s = s /\ rstrip_by p s = s.
Proof.
  unfold strip_by. intros H.
  assert (Hl : lstrip_by p s = s).
  { apply lstrip_by_same_length.
    pose proof (rstrip_by_length (lstrip_by p s)) as H1.
    pose proof (lstrip_by_length p s) as H2.
    rewrite H in H1. lia. }
  split; [exact Hl|]. now rewrite Hl in H.
Qed.

Lemma lfixed_app (a b : string) : lfixed p a -> lfixed p (a ++ b).
Proof.
  intros [Hne Hl]. destruct a as [|c a]; [now elim Hne|].
  split; [discriminate|].
  simpl in *. destruct (p c) eqn:E; [|reflexivity].
  exfalso. pose proof (lstrip_by_length p a) as H.
  rewrite Hl in H. simpl in H. lia.
Qed.

Lemma rfixed_app (a b : string) : rfixed p b -> rfixed p (a ++ b).
Proof.
  intros [Hne Hr]. induction a as [|c a [IH1 IH2]].
  - split; assumption.
  - split; [discriminate|].
    simpl. rewrite IH2.
    destruct (a ++ b) eqn:E; [now elim IH1|]. reflexivity.
Qed.

Lemma fixed_strip (s : string) :
  lfixed p s -> rfixed p s -> strip_by p s = s.
Proof.
  intros [_ Hl] [_ Hr]. unfold strip_by. now rewrite Hl, Hr.
Qed.

Lemma strip_fixed (s : string) :
  s <> "" -> strip_by p s = s -> lfixed p s /\ rfixed p s.
Proof.
  intros Hne H. apply strip_by_fixed_parts in H. destruct H as [Hl Hr].
  split; split; assumption.
Qed.

Lemma strip_by_lpad (l s : string) :
  all_str p l = true -> strip_by p (l ++ s) = strip_by p s.
Proof.
  intros Hl. rewrite <- (append_nil_r s) at 1.
  rewrite (strip_by_pad p l s "" Hl eq_refl). reflexivity.
Qed.

(** Joining stripped texts gives a stripped text. *)
Lemma fixed_join (sep : string) (l : list string) :
  l <> [] ->
  Forall (fun t => t <> "" /\ strip_by p t = t) l ->
  lfixed p (join sep l) /\ rfixed p (join sep l).
Proof.
  induction l as [|x l IH]; intros Hne H; [now elim Hne|].
  inversion H as [|? ? [Hx1 Hx2] Hl]; subst.
  destruct (strip_fixed x Hx1 Hx2) as [Lx Rx].
  destruct l as [|y l]; [split; assumption|].
  rewrite join_cons.
  destruct (IH ltac:(discriminate) Hl) as [_ R].
  split.
  - now apply lfixed_app.
  - now apply rfixed_app, rfixed_app.
Qed.
End Fixed.
End JoinSplit.

(** ** Replies in the requested format are read back *)

Section RoundTrips.
Import PyStr PyNum Rel Gateway ChainQueryGenerator.
Local Open Scope string_scope.

Lemma scan_line_clean (q : string) : clean_question q -> scan_line q = [q].
Proof.
  intros (Hq & Hlen & Hs & Hm & _). unfold scan_line. rewrite Hs, Hm, Hq.
  assert (He : is_empty q = false).
  { destruct q; [simpl in Hlen; lia | reflexivity]. }
  rewrite He. apply Nat.ltb_lt in Hlen. now rewrite Hlen.
Qed.

(** X17.  Questions written one per line, as the prompt asks, are read
    back as they are: when every line holds a question mark, is longer
    than 10 characters and has no white space or marker character at
    either end, [_parse_questions] returns the first three lines, in
    their order. *)
Theorem X17_parse_questions_round_trip (qs : list string) :
  qs <> [] ->
  Forall clean_question qs ->
  _parse_questions (unlines qs) = firstn 3 qs.
Proof.
  intros Hne Hall. unfold _parse_questions, unlines.
  assert (Hfix : Forall (fun t => t <> "" /\ strip_by isspace t = t) qs).
  { eapply Forall_impl; [|exact Hall].
    intros q (_ & Hlen & Hs & _). split; [|exact Hs].
    destruct q; [simpl in Hlen; lia | discriminate]. }
  destruct (fixed_join isspace nl qs Hne Hfix) as [L R].
  unfold strip. rewrite (fixed_strip isspace _ L R).
  assert (Hnl : Forall (fun q => has_char nl_char q = false) qs).
  { eapply Forall_impl; [|exact Hall]. now intros q (_ & _ & _ & _ & H). }
  unfold nl. rewrite (split_on_join nl_char qs Hne Hnl).
  assert (Hscan : flat_map scan_line qs = qs).
  { clear - Hall. induction Hall as [|q l Hq Hl IH]; [reflexivity|].
    simpl. now rewrite (scan_line_clean q Hq), IH. }
  rewrite Hscan. destruct qs; [now elim Hne | reflexivity].
Qed.

Lemma X17_witness :
  _parse_questions
    (unlines ["Would you like to see an example?";
              "Should I explain the details?"])
  = ["Would you like to see an example?"; "Should I explain the details?"].
Proof.
  apply (X17_parse_questions_round_trip
           ["Would you like to see an example?";
            "Should I explain the details?"]).
  - discriminate.
  - repeat constructor; vm_compute; lia.
Defined.

Lemma strip_lpad (l s : string) :
  all_str isspace l = true -> strip (l ++ s) = strip s.
Proof. apply strip_by_lpad. Qed.

Lemma topics_round (ts : list string) :
  forall l : string,
    ts <> [] ->
    Forall (fun t => t <> "" /\ strip t = t /\ has_char "," t = false
                     /\ has_char nl_char t = false) ts ->
    all_str isspace l = true ->
    has_char "," l = false ->
    map strip (split_on "," (l ++ join ", " ts)) = ts.
Proof.
  induction ts as [|t ts IH]; intros l Hne H Hl Hc; [now elim Hne|].
  inversion H as [|? ? (Ht1 & Ht2 & Ht3 & Ht4) Hts]; subst.
  destruct ts as [|y r].
  - cbn [join String.concat].
    rewrite split_on_none; [|now rewrite has_char_app, Hc, Ht3].
    cbn [map]. now rewrite (strip_lpad l t Hl), Ht2.
  - rewrite join_cons.
    change (", " ++ join ", " (y :: r))
      with (String "," (" " ++ join ", " (y :: r))).
    rewrite <- append_assoc.
    rewrite split_on_app; [|now rewrite has_char_app, Hc, Ht3].
    cbn [map]. f_equal.
    + now rewrite (strip_lpad l t Hl), Ht2.
    + apply IH; [discriminate | exact Hts | reflexivity | reflexivity].
Qed.

(** X18.  A reply in the format that the analysis prompt asks for is
    read back to the characterization it states: for a well-formed
    characterization, parsing its five lines gives it back. *)
Theorem X18_parse_analysis_round_trip (a : Analysis) :
  well_formed a -> _parse_analysis (format_analysis a) = a.
Proof.
  destruct a as [t ts c cm e].
  intros [(Ht1 & Ht2 & Ht3) (Hts1 & Hts2) (Hc1 & Hc2 & Hc3)
          (Hm1 & Hm2 & Hm3) (He1 & He2 & He3)].
  cbn [type topics complexity completeness exploration] in *.
  unfold _parse_analysis, format_analysis.
  cbn [type topics complexity completeness exploration].
  set (l1 := "Type: " ++ t).
  set (l2 := "Topics: " ++ join ", " ts).
  set (l3 := "Complexity: " ++ c).
  set (l4 := "Completeness: " ++ cm).
  set (l5 := "Exploration: " ++ e).
  assert (Hstrip : strip (unlines [l1; l2; l3; l4; l5])
                   = unlines [l1; l2; l3; l4; l5]).
  { apply fixed_strip.
    - unfold unlines. rewrite join_cons. apply lfixed_app.
      split; [discriminate | reflexivity].
    - unfold unlines. rewrite !join_cons. cbn [join String.concat].
      unfold l5. do 9 apply rfixed_app.
      now apply (strip_fixed isspace e He1 He2). }
  rewrite Hstrip.
  assert (Hj : has_char nl_char (join ", " ts) = false).
  { apply has_char_join; [reflexivity|].
    eapply Forall_impl; [|exact Hts2]. now intros x (_ & _ & _ & H). }
  unfold unlines, nl. rewrite split_on_join; [|discriminate|].
  2:{ unfold l1, l2, l3, l4, l5.
      repeat constructor; rewrite has_char_app;
        [now rewrite Ht3 | now rewrite Hj | now rewrite Hc3
        | now rewrite Hm3 | now rewrite He3]. }
  assert (S1 : strip (" " ++ t) = t).
  { now rewrite (strip_lpad " " t eq_refl). }
  assert (S3 : strip (" " ++ c) = c).
  { now rewrite (strip_lpad " " c eq_refl). }
  assert (S4 : strip (" " ++ cm) = cm).
  { now rewrite (strip_lpad " " cm eq_refl). }
  assert (S5 : strip (" " ++ e) = e).
  { now rewrite (strip_lpad " " e eq_refl). }
  assert (S2 : map strip (split_on "," (strip (" " ++ join ", " ts))) = ts).
  { assert (Hfix : Forall (fun x => x <> "" /\ strip_by isspace x = x) ts).
    { eapply Forall_impl; [|exact Hts2]. now intros x (H1 & H2 & _). }
    destruct (fixed_join isspace ", " ts Hts1 Hfix) as [L R].
    rewrite (strip_lpad " " _ eq_refl).
    unfold strip at 2. rewrite (fixed_strip isspace _ L R).
    exact (topics_round ts "" Hts1 Hts2 eq_refl eq_refl). }
  match goal with
  | |- context [fold_left ?f _ _] => set (step := f)
  end.
  assert (E1 : forall a, step a l1
                         = {| type := lower (strip (" " ++ t));
                              topics := topics a;
                              complexity := complexity a;
                              completeness := completeness a;
                              exploration := exploration a |})
    by reflexivity.
  assert (E2 : forall a, step a l2
                         = {| type := type a;
                              topics :=
                                map strip
                                    (split_on ","
                                       (strip (" " ++ join ", " ts)));
                              complexity := complexity a;
                              completeness := completeness a;
                              exploration := exploration a |})
    by reflexivity.
  assert (E3 : forall a, step a l3
                         = {| type := type a;
                              topics := topics a;
                              complexity := lower (strip (" " ++ c));
                              completeness := completeness a;
                              exploration := exploration a |})
    by reflexivity.
  assert (E4 : forall a, step a l4
                         = {| type := type a;
                              topics := topics a;
                              complexity := complexity a;
                              completeness := lower (strip (" " ++ cm));
                              exploration := exploration a |})
    by reflexivity.
  assert (E5 : forall a, step a l5
                         = {| type := type a;
                              topics := topics a;
                              complexity := complexity a;
                              completeness := completeness a;
                              exploration := strip (" " ++ e) |})
    by reflexivity.
  clearbody step l1 l2 l3 l4 l5.
  cbn [fold_left]. rewrite E1, E2, E3, E4, E5.
  cbn [type topics complexity completeness exploration].
  now rewrite S1, S2, S3, S4, S5, Ht1, Hc1, Hm1.
Qed.

Lemma X18_witness :
  let a := {| type := "technical";
              topics := ["neural networks"; "training"];
              complexity := "complex";
              completeness := "overview";
              exploration := "regularization methods" |} in
  _parse_analysis (format_analysis a) = a.
Proof.
  apply X18_parse_analysis_round_trip.
  constructor; cbn [type topics complexity completeness exploration];
    repeat split; try reflexivity; try discriminate;
    repeat constructor; try reflexivity; discriminate.
Defined.
End RoundTrips.

(** ** The follow-up pipeline under any backend *)

Section PipelineFacts.
Import PyStr PyNum Rel Gateway ChainQueryGenerator.
Local Open Scope string_scope.

(** The run of [generate_follow_up_questions], call by call. *)
Lemma generate_follow_up_run (W : Type)
    (backend : Request -> W -> (Exn + string) * W) (w : W)
    (user_message ai_response intent : string) :
  let first := backend (analysis_request ai_response intent) w in
  let analysis :=
    match fst first with
    | inl _ => default_analysis
    | inr text => _parse_analysis text
    end in
  let second :=
    backend (questions_request user_message analysis) (snd first) in
  run backend (generate_follow_up_questions user_message ai_response intent) w
  = {| result :=
         inr (match fst second with
              | inr text => _parse_questions text
              | inl _ => _get_fallback_questions (type analysis)
              end);
       final := snd second;
       calls := [ analysis_request ai_response intent;
                  questions_request user_message analysis ] |}.
Proof.
  unfold generate_follow_up_questions, _analyze_response,
    _generate_questions, chat_completion.
  cbn [try_except bind run result final calls].
  destruct (backend (analysis_request ai_response intent) w)
    as [[e1|t1] w1];
    cbn [try_except bind run result final calls fst snd].
  - destruct (backend (questions_request user_message default_analysis) w1)
      as [[e2|t2] w2]; reflexivity.
  - destruct (backend (questions_request user_message (_parse_analysis t1)) w1)
      as [[e2|t2] w2]; reflexivity.
Qed.

(** The run of [append_best_with], from the run of its generator. *)
Lemma append_best_with_run (W : Type)
    (backend : Request -> W -> (Exn + string) * W) (w : W)
    (generate : Prog (list string)) (ai_response : string) :
  let g := run backend generate w in
  run backend (append_best_with generate ai_response) w
  = {| result :=
         inr (match result g with
              | inr (first :: _) =>
                  ai_response ++ nl ++ nl ++ strip_chars (chars_of dq) first
              | inr [] | inl _ => ai_response
              end);
       final := final g;
       calls := calls g |}.
Proof.
  cbv zeta. unfold append_best_with.
  rewrite run_try_except, run_bind. cbv zeta.
  destruct (run backend generate w) as [[e|[|first rest]] w' cs];
    cbn [result final calls run]; rewrite ?app_nil_r; reflexivity.
Qed.

Lemma _parse_questions_sound (response : string) :
  (List.length (_parse_questions response) <= 3)%nat /\
  Forall is_question (_parse_questions response).
Proof.
  unfold _parse_questions. split; [apply firstn_le_length|].
  apply Forall_forall. intros q Hq.
  apply (Subseq_In _ _ _ (Subseq_firstn _ _)) in Hq.
  destruct (flat_map scan_line (split_on nl_char (strip response)))
    as [|q0 qs] eqn:E.
  - apply in_flat_map in Hq. destruct Hq as (sentence & _ & Hq).
    now apply scan_sentence_sound in Hq.
  - rewrite <- E in Hq.
    apply in_flat_map in Hq. destruct Hq as (line & _ & Hq).
    apply scan_line_sound in Hq. split; tauto.
Qed.

Lemma _get_fallback_questions_sound (intent : string) :
  List.length (_get_fallback_questions intent) = 3%nat /\
  Forall is_question (_get_fallback_questions intent) /\
  Forall (fun q => strip_chars (chars_of dq) q = q)
         (_get_fallback_questions intent).
Proof.
  unfold _get_fallback_questions, is_question.
  destruct (String.eqb intent "query");
    [|destruct (String.eqb intent "information")];
    (split; [reflexivity|]; split; repeat constructor; vm_compute; lia).
Qed.

Lemma generate_follow_ups_sound (W : Type)
    (backend : Request -> W -> (Exn + string) * W) (w : W)
    (user_message ai_response intent : string) :
  let o :=
    run backend
        (generate_follow_up_questions user_message ai_response intent) w in
  List.length (calls o) = 2%nat /\
  exists questions,
    result o = inr questions /\
    (List.length questions <= 3)%nat /\
    Forall (fun q => has_char "?" q = true /\ (10 < String.length q)%nat)
           questions.
Proof.
  cbv zeta. rewrite generate_follow_up_run. cbn [result calls].
  split; [reflexivity|].
  eexists. split; [reflexivity|].
  destruct (fst (backend _ (snd _))) as [e|text].
  - destruct (_get_fallback_questions_sound
                (type match fst (backend (analysis_request ai_response intent) w) with
                      | inl _ => default_analysis
                      | inr text => _parse_analysis text
                      end)) as (H1 & H2 & _).
    split; [rewrite H1; lia | exact H2].
  - apply _parse_questions_sound.
Qed.

(** X19.  Whatever the backend does, [generate_follow_up_questions] makes
    exactly two calls, does not raise, and returns at most three
    questions, each with a question mark and longer than 10 characters. *)
Theorem X19_generate_follow_ups_total (W : Type)
    (backend : Request -> W -> (Exn + string) * W) (w : W)
    (user_message ai_response intent : string) :
  let o :=
    run backend
        (generate_follow_up_questions user_message ai_response intent) w in
  List.length (calls o) = 2%nat /\
  exists questions,
    result o = inr questions /\
    (List.length questions <= 3)%nat /\
    Forall (fun q => has_char "?" q = true /\ (10 < String.length q)%nat)
           questions.
Proof. apply generate_follow_ups_sound. Qed.

(** X20.  With a backend that fails on every call, the generator returns
    the generic fallback list for every intent, and the enriched reply is
    the reply, an empty line and the question "Would you like to know more
    about this?". *)
Theorem X20_unreachable_backend (W : Type)
    (backend : Request -> W -> (Exn + string) * W) (w : W)
    (user_message ai_response intent : string) :
  (forall rq w', exists e, fst (backend rq w') = inl e) ->
  result (run backend
              (generate_follow_up_questions user_message ai_response intent) w)
  = inr [ "Would you like to know more about this?";
          "Do you want to explore this further?";
          "Should I tell you more about this?" ] /\
  result (run backend
              (append_best_follow_up_to_response
                 user_message ai_response intent) w)
  = inr (ai_response ++ nl ++ nl ++ "Would you like to know more about this?").
Proof.
  intros Hfail.
  assert (Hg : result (run backend
                 (generate_follow_up_questions user_message ai_response intent) w)
               = inr [ "Would you like to know more about this?";
                       "Do you want to explore this further?";
                       "Should I tell you more about this?" ]).
  { rewrite generate_follow_up_run. cbn [result].
    destruct (Hfail (analysis_request ai_response intent) w) as [e1 H1].
    rewrite H1.
    destruct (Hfail (questions_request user_message default_analysis)
                    (snd (backend (analysis_request ai_response intent) w)))
      as [e2 H2].
    rewrite H2. reflexivity. }
  split; [exact Hg|].
  unfold append_best_follow_up_to_response.
  rewrite append_best_with_run. cbn [result]. rewrite Hg. reflexivity.
Qed.

Lemma X20_witness :
  result (run failing
              (append_best_follow_up_to_response "what is x" "It is y." "query")
              tt)
  = inr ("It is y." ++ nl ++ nl ++ "Would you like to know more about this?").
Proof.
  apply (X20_unreachable_backend unit failing tt "what is x" "It is y." "query").
  intros rq w'. exists "Connection error". reflexivity.
Defined.

(** X21.  Whatever the backend does, [append_best_follow_up_to_response]
    makes exactly two calls and returns either the reply as it is, or the
    reply, an empty line and a text that holds a question mark and has no
    double quote at either end. *)
Theorem X21_append_best_shape (W : Type)
    (backend : Request -> W -> (Exn + string) * W) (w : W)
    (user_message ai_response intent : string) :
  let o :=
    run backend
        (append_best_follow_up_to_response user_message ai_response intent)
        w in
  List.length (calls o) = 2%nat /\
  exists out,
    result o = inr out /\
    (out = ai_response \/
     exists q,
       out = ai_response ++ nl ++ nl ++ q /\
       has_char "?" q = true /\ strip_chars (chars_of dq) q = q).
Proof.
  cbv zeta. unfold append_best_follow_up_to_response.
  rewrite append_best_with_run. cbn [result calls].
  pose proof (generate_follow_ups_sound W backend w
                user_message ai_response intent) as H.
  cbv zeta in H. destruct H as (Hc & qs & Hr & _ & Hq).
  split; [exact Hc|]. rewrite Hr.
  eexists. split; [reflexivity|].
  destruct qs as [|first rest]; [now left|]. right.
  exists (strip_chars (chars_of dq) first).
  split; [reflexivity|]. split.
  - inversion Hq as [|? ? [H1 _] _]; subst.
    unfold strip_chars. rewrite has_char_strip_by; [exact H1 | reflexivity].
  - apply strip_by_idem.
Qed.
End PipelineFacts.

(** ** Replies without a question, bounded prompts, and the callers *)

Section CallerFacts.
Import PyStr PyNum Rel Gateway ChainQueryGenerator.
Local Open Scope string_scope.

Lemma has_char_split_on (c sep : ascii) (s : string) :
  has_char c s = false ->
  Forall (fun piece => has_char c piece = false) (split_on sep s).
Proof.
  induction s as [|x s IH]; intros H.
  - repeat constructor.
  - simpl in H. apply orb_false_elim in H. destruct H as [Hx Hs].
    specialize (IH Hs). simpl.
    destruct (Ascii.eqb x sep).
    + constructor; [reflexivity | exact IH].
    + destruct (split_on sep s) as [|h t].
      * repeat constructor. simpl. now rewrite Hx.
      * inversion IH; subst. constructor; [|assumption].
        simpl. now rewrite Hx.
Qed.

Lemma scan_line_no_mark (line : string) :
  has_char "?" line = false -> scan_line line = [].
Proof.
  intros H. unfold scan_line.
  assert (H1 : has_char "?" (strip line) = false).
  { unfold strip. rewrite has_char_strip_by; [exact H | reflexivity]. }
  assert (H2 : ends_with_char "?" (strip line) = false).
  { destruct (ends_with_char "?" (strip line)) eqn:E; [|reflexivity].
    apply ends_with_has_char in E. congruence. }
  rewrite H1, H2. now rewrite andb_false_r.
Qed.

Lemma flat_map_nil {A B : Type} (f : A -> list B) (l : list A) :
  Forall (fun x => f x = []) l -> flat_map f l = [].
Proof.
  induction 1 as [|x l Hx Hl IH]; [reflexivity|].
  simpl. now rewrite Hx, IH.
Qed.

Lemma _parse_questions_no_mark (response : string) :
  has_char "?" response = false -> _parse_questions response = [].
Proof.
  intros H. unfold _parse_questions.
  assert (Hs : has_char "?" (strip response) = false).
  { unfold strip. rewrite has_char_strip_by; [exact H | reflexivity]. }
  rewrite (flat_map_nil scan_line).
  - rewrite (flat_map_nil scan_sentence); [reflexivity|].
    eapply Forall_impl; [|apply (has_char_split_on "?" "." response H)].
    intros piece Hp. unfold scan_sentence. now rewrite Hp.
  - eapply Forall_impl; [|apply (has_char_split_on "?" nl_char _ Hs)].
    intros piece Hp. now apply scan_line_no_mark.
Qed.

(** X22.  A reply of the backend without a question mark gives no
    follow-up question: [_parse_questions] returns the empty list, and
    with a backend that answers every call with such a text the enriched
    reply is the reply unchanged. *)
Theorem X22_no_question_mark (text user_message ai_response intent : string) :
  has_char "?" text = false ->
  _parse_questions text = [] /\
  result (run (answering text)
              (append_best_follow_up_to_response
                 user_message ai_response intent) tt)
  = inr ai_response.
Proof.
  intros H. split; [now apply _parse_questions_no_mark|].
  unfold append_best_follow_up_to_response.
  rewrite append_best_with_run. cbn [result].
  rewrite generate_follow_up_run. cbn [result answering fst snd].
  now rewrite (_parse_questions_no_mark text H).
Qed.

Lemma X22_witness :
  _parse_questions "I have nothing to add." = [] /\
  result (run (answering "I have nothing to add.")
              (append_best_follow_up_to_response "what is x" "It is y." "query")
              tt)
  = inr "It is y.".
Proof.
  apply (X22_no_question_mark "I have nothing to add."). reflexivity.
Defined.

Lemma take_take (n : nat) (s : string) : take n (take n s) = take n s.
Proof.
  revert s. induction n as [|n IH]; intros [|c s]; simpl; try reflexivity.
  now rewrite IH.
Qed.

Lemma take_length (n : nat) (s : string) :
  (String.length (take n s) <= n)%nat.
Proof.
  revert s. induction n as [|n IH]; intros [|c s]; simpl; try lia.
  specialize (IH s). lia.
Qed.

(** X23.  The prompts are bounded: the analysis request holds at most the
    first 500 characters of the reply, and the generation request at most
    the first 200 characters of the user message and the first 3 topics;
    what lies beyond does not change the request. *)
Theorem X23_prompts_truncate (ai_response user_message intent : string)
    (a : Analysis) :
  analysis_request ai_response intent
  = analysis_request (take 500 ai_response) intent /\
  (String.length (take 500 ai_response) <= 500)%nat /\
  questions_request user_message a
  = questions_request (take 200 user_message)
      {| type := type a;
         topics := firstn 3 (topics a);
         complexity := complexity a;
         completeness := completeness a;
         exploration := exploration a |} /\
  (String.length (take 200 user_message) <= 200)%nat.
Proof.
  split; [|split; [apply take_length | split; [|apply take_length]]].
  - unfold analysis_request. now rewrite take_take.
  - unfold questions_request.
    cbn [type topics complexity completeness exploration].
    rewrite take_take, firstn_firstn. reflexivity.
Qed.
End CallerFacts.

(** ** The callers *)

Section ApiFacts.
Import PyStr PyNum Rel Gateway ChainQueryGenerator ApiRoutes.
Local Open Scope string_scope.

(** X24.  The endpoint [analyze_intent] never fails with the status 500,
    whatever the backend does and whatever [json.loads] returns: it makes
    at most one call and returns an analysis whose intent is one of the
    four, whose description is the one of that intent and not "Unknown
    intent", whose confidence is not negative, with at most 10 keywords
    and a complexity among [simple], [moderate] and [complex]. *)
Theorem X24_analyze_intent_total
    (json_loads : string -> option AIIntentClassifier.json)
    (W : Type) (backend : Request -> W -> (Exn + string) * W) (w : W)
    (message : string) :
  let o := run backend (analyze_intent json_loads message) w in
  (List.length (calls o) <= 1)%nat /\
  exists r,
    result o = inr r /\
    In (intent r) ["greetings"; "query"; "information"; "feedback"] /\
    description r = AIIntentClassifier.get_intent_description (intent r) /\
    description r <> "Unknown intent" /\
    0 <= confidence r /\
    keywords r = AIIntentClassifier.extract_keywords message /\
    (List.length (keywords r) <= 10)%nat /\
    In (complexity r) ["simple"; "moderate"; "complex"].
Proof.
  cbv zeta. unfold analyze_intent.
  rewrite run_try_except, run_bind. cbv zeta.
  pose proof (generative_classify_total json_loads W backend w message)
    as H.
  cbv zeta in H. destruct H as (Hc & i & c & Hr & Hi & Hc0).
  destruct (run backend (AIIntentClassifier.classify_intent json_loads message) w)
    as [res w' cs].
  cbn [result final calls] in *. subst res.
  cbn [result final calls run]. rewrite app_nil_r.
  split; [exact Hc|].
  eexists. split; [reflexivity|].
  cbn [intent description confidence keywords complexity].
  split; [exact Hi|]. split; [reflexivity|].
  split.
  { intros Hd. apply (proj2 (description_known i)) in Hd. now apply Hd. }
  split; [exact Hc0|]. split; [reflexivity|].
  split.
  { unfold AIIntentClassifier.extract_keywords. apply firstn_le_length. }
  unfold AIIntentClassifier.analyze_message_complexity.
  destruct (Nat.leb _ 3); [now left|].
  destruct (Nat.leb _ 10); [now right; left | now right; right; left].
Qed.

(** X25.  The enhancement step of the chat endpoints never raises and
    never loses the reply of the backend: for the intent [greetings], for
    a string that is not an intent, and for a reply shorter than 50
    characters it returns the reply unchanged without any call; otherwise
    it makes exactly two calls and returns a text that begins with the
    reply. *)
Theorem X25_enhance_response (W : Type)
    (backend : Request -> W -> (Exn + string) * W) (w : W)
    (message response intent : string) :
  let o := run backend (enhance_response message response intent) w in
  if (existsb (String.eqb intent) ["query"; "information"; "feedback"]
      && Nat.leb 50 (String.length response))%bool
  then List.length (calls o) = 2%nat /\
       exists out, result o = inr out /\ startswith response out = true
  else result o = inr response /\ calls o = [] /\ final o = w.
Proof.
  cbv zeta. unfold enhance_response, should_generate_follow_up.
  assert (Hlen : Z.ltb (Z.of_nat (String.length response)) 50
                 = negb (Nat.leb 50 (String.length response))).
  { destruct (Nat.leb_spec 50 (String.length response));
      [apply Z.ltb_ge | apply Z.ltb_lt]; lia. }
  rewrite Hlen.
  destruct (Nat.leb 50 (String.length response)); cbn [negb];
    [|rewrite orb_true_r, andb_false_r; repeat split].
  rewrite orb_false_r, andb_true_r.
  destruct (String.eqb_spec intent "greetings") as [->|Hg].
  { cbn. repeat split. }
  cbn [orb].
  destruct (existsb (String.eqb intent) ["query"; "information"; "feedback"]);
    [|repeat split].
  rewrite run_try_except. cbv zeta.
  unfold append_best_follow_up_to_response.
  rewrite append_best_with_run. cbn [result final calls].
  rewrite generate_follow_up_run. cbn [result final calls].
  split; [reflexivity|].
  eexists. split; [reflexivity|].
  match goal with
  | |- startswith _ (match ?l with _ => _ end) = true => destruct l as [|q qs]
  end.
  - apply startswith_refl.
  - apply startswith_app.
Qed.
End ApiFacts.

(** ** The numeral in a reply *)

Section Numerals.
Import PyStr PyNum Regex Rel AIIntentClassifier.
Local Open Scope string_scope.

(** A repetition of digits takes all the digits there are, when what
    follows can go on from there. *)
Lemma star_digit_greedy {A : Type} (k : option ascii -> string -> option A)
    (y : A) (s : string) (prev : option ascii) :
  (forall p', k p' (lstrip_by is_digit s) = Some y) ->
  rmatch false (Star Digit) prev s k = Some y.
Proof.
  intros Hk.
  set (loop :=
         fix loop (fuel : nat) (p : option ascii) (t : string)
             {struct fuel} : option A :=
           match fuel with
           | O => k p t
           | S f =>
               match rmatch false Digit p t
                       (fun p' t' =>
                          if Nat.ltb (String.length t') (String.length t)
                          then loop f p' t' else None) with
               | Some z => Some z
               | None => k p t
               end
           end).
  change (loop (S (String.length s)) prev s = Some y).
  assert (L : forall t fuel p,
             (String.length t < fuel)%nat ->
             (forall p', k p' (lstrip_by is_digit t) = Some y) ->
             loop fuel p t = Some y).
  { induction t as [|x t IH]; intros fuel p Hf Ht.
    - destruct fuel as [|f]; [simpl in Hf; lia|]. simpl. apply Ht.
    - destruct fuel as [|f]; [simpl in Hf; lia|].
      change (loop (S f) p (String x t))
        with (match rmatch false Digit p (String x t)
                      (fun p' t' =>
                         if Nat.ltb (String.length t')
                                    (String.length (String x t))
                         then loop f p' t' else None) with
              | Some z => Some z
              | None => k p (String x t)
              end).
      cbn [rmatch one].
      destruct (is_digit x) eqn:Hx.
      + assert (Hlt : Nat.ltb (String.length t) (String.length (String x t))
                      = true).
        { apply Nat.ltb_lt. simpl. lia. }
        rewrite Hlt. rewrite (IH f (Some x)); [reflexivity| |].
        * simpl in Hf. lia.
        * intros p'. rewrite <- (Ht p'). now rewrite (lstrip_by_true _ _ _ Hx).
      + rewrite <- (Ht p). now rewrite (lstrip_by_false _ _ _ Hx). }
  apply L; [lia | exact Hk].
Qed.

Lemma fraction_match (prev : option ascii) (s : string) :
  rmatch false (Seq (Opt (Lit ".")) (Star Digit)) prev s (fun _ e => Some e)
  = Some (after_fraction s).
Proof.
  unfold Opt.
  change (rmatch false (Seq (Alt (Lit ".") Eps) (Star Digit)) prev s
                 (fun _ e => Some e))
    with (match one (fun x => Ascii.eqb x ".") s
                    (fun p s1 => rmatch false (Star Digit) p s1
                                        (fun _ e => Some e)) with
          | Some x => Some x
          | None => rmatch false (Star Digit) prev s (fun _ e => Some e)
          end).
  destruct s as [|c s']; cbn [one after_fraction].
  - now apply star_digit_greedy.
  - destruct (Ascii.eqb c ".").
    + now rewrite (star_digit_greedy (fun _ e => Some e)
                     (lstrip_by is_digit s') s' (Some c)).
    + now apply star_digit_greedy.
Qed.

Lemma number_match (prev : option ascii) (s : string) :
  rmatch false number_pattern prev s (fun _ e => Some e)
  = match s with
    | String x s' =>
        if is_digit x then Some (after_fraction (lstrip_by is_digit s'))
        else None
    | EmptyString => None
    end.
Proof.
  unfold number_pattern, Plus. cbn [seqs].
  change (rmatch false
            (Seq (Seq Digit (Star Digit)) (Seq (Opt (Lit ".")) (Star Digit)))
            prev s (fun _ e => Some e))
    with (one is_digit s
              (fun p s1 =>
                 rmatch false (Star Digit) p s1
                        (fun p2 s2 =>
                           rmatch false (Seq (Opt (Lit ".")) (Star Digit))
                                  p2 s2 (fun _ e => Some e)))).
  destruct s as [|x s']; cbn [one]; [reflexivity|].
  destruct (is_digit x); [|reflexivity].
  apply star_digit_greedy. intros p'. apply fraction_match.
Qed.

Lemma take_while_lstrip (p : ascii -> bool) (s : string) :
  s = take_while p s ++ lstrip_by p s.
Proof.
  induction s as [|c s IH]; simpl; [reflexivity|].
  destruct (p c); simpl; [now rewrite <- IH | reflexivity].
Qed.

Lemma length_append (a b : string) :
  String.length (a ++ b) = (String.length a + String.length b)%nat.
Proof. induction a as [|c a IH]; simpl; [reflexivity | now rewrite IH]. Qed.

Lemma take_app (a e : string) :
  take (String.length (a ++ e) - String.length e) (a ++ e) = a.
Proof.
  rewrite length_append.
  replace (String.length a + String.length e - String.length e)%nat
    with (String.length a) by lia.
  induction a as [|c a IH]; simpl; [now destruct e | now rewrite IH].
Qed.

Lemma digits_value_all (s : string) :
  all_str is_digit s = true ->
  forall acc, exists v, digits_value acc s = Some v.
Proof.
  induction s as [|c s IH]; intros H acc; cbn [digits_value].
  - now exists acc.
  - simpl in H. apply andb_prop in H. destruct H as [Hc Hs].
    rewrite Hc. apply IH, Hs.
Qed.

Lemma digit_not_point (c : ascii) :
  is_digit c = true -> Ascii.eqb c "." = false.
Proof. destruct c as [[] [] [] [] [] [] [] []]; vm_compute; congruence. Qed.

Lemma before_first_digits (d t : string) :
  all_str is_digit d = true ->
  before_first "." (d ++ String "." t) = d /\
  after_first "." (d ++ String "." t) = Some t /\
  before_first "." d = d /\ after_first "." d = None.
Proof.
  induction d as [|c d IH]; intros H.
  - simpl. repeat split.
  - simpl in H. apply andb_prop in H. destruct H as [Hc Hd].
    destruct (IH Hd) as (H1 & H2 & H3 & H4).
    simpl. rewrite (digit_not_point c Hc), H1, H2, H3, H4. repeat split.
Qed.

Lemma matched_prefix (a e s : string) :
  s = a ++ e -> take (String.length s - String.length e) s = a.
Proof. intros ->. apply take_app. Qed.

(** The text that the pattern of a numeral matches converts to a
    number. *)
Lemma numeral_converts (x : ascii) (s' : string) :
  is_digit x = true ->
  exists v,
    py_float (matched_text (String x s',
                            after_fraction (lstrip_by is_digit s')))
    = Some v.
Proof.
  intros Hx. unfold matched_text. cbn [fst snd].
  set (s := String x s').
  set (d1 := take_while is_digit s).
  assert (Hd1 : all_str is_digit d1 = true) by apply all_str_take_while.
  assert (Hne : is_empty d1 = false).
  { unfold d1, s. simpl. now rewrite Hx. }
  assert (Hs : s = d1 ++ lstrip_by is_digit s') .
  { unfold d1. rewrite (take_while_lstrip is_digit s) at 1.
    unfold s. now rewrite (lstrip_by_true _ _ _ Hx). }
  clearbody d1. clearbody s.
  destruct (digits_value_all d1 Hd1 0) as [w Hw].
  assert (Plain : exists v, py_float d1 = Some v).
  { unfold py_float.
    destruct (before_first_digits d1 "" Hd1) as (_ & _ & H3 & H4).
    rewrite H3, Hne, Hw, H4. eauto. }
  destruct (lstrip_by is_digit s') as [|c r2] eqn:Er.
  - cbn [after_fraction]. rewrite (matched_prefix d1 "" s Hs). exact Plain.
  - cbn [after_fraction]. destruct (Ascii.eqb_spec c ".") as [->|Hc].
    + set (d2 := take_while is_digit r2).
      assert (Hd2 : all_str is_digit d2 = true) by apply all_str_take_while.
      assert (Hs2 : s = (d1 ++ String "." d2) ++ lstrip_by is_digit r2).
      { rewrite Hs. rewrite (take_while_lstrip is_digit r2) at 1.
        fold d2. rewrite append_assoc. reflexivity. }
      rewrite (matched_prefix _ _ s Hs2).
      unfold py_float.
      destruct (before_first_digits d1 d2 Hd1) as (H1 & H2 & _ & _).
      rewrite H1, Hne, Hw, H2.
      destruct (digits_value_all d2 Hd2 0) as [f Hf]. rewrite Hf. eauto.
    + assert (Hl : lstrip_by is_digit (String c r2) = String c r2).
      { rewrite <- Er. apply lstrip_by_idem. }
      rewrite Hl. rewrite (matched_prefix d1 _ s Hs). exact Plain.
Qed.

Lemma search_number (s : string) :
  forall prev,
    match search_from false number_pattern prev s with
    | Some m => exists v, py_float (matched_text m) = Some v
    | None => all_str not_digit s = true
    end.
Proof.
  induction s as [|x s' IH]; intros prev.
  - cbn [search_from]. rewrite number_match. reflexivity.
  - cbn [search_from]. rewrite number_match.
    destruct (is_digit x) eqn:Hx.
    + now apply numeral_converts.
    + specialize (IH (Some x)).
      destruct (search_from false number_pattern (Some x) s'); [exact IH|].
      simpl. unfold not_digit at 1. now rewrite Hx, IH.
Qed.

(** X26.  The numeral that the text-based extraction finds always
    converts to a number, so the default confidence 0.8 is kept exactly
    when the reply holds no digit at all; otherwise the confidence is
    computed from the first numeral of the reply. *)
Theorem X26_numeral_always_read (response : string) (r : IntentResult) :
  _extract_intent_from_text response = Some r ->
  match search false number_pattern response with
  | None => all_str not_digit response = true /\ confidence r = 8 # 10
  | Some numeral =>
      exists v,
        py_float numeral = Some v /\ 0 <= v /\
        confidence r = (if Qltb 1 v then v / 100 else v)
  end.
Proof.
  intros H. unfold _extract_intent_from_text in H.
  destruct (filter _ intent_keys) as [|i rest]; [discriminate|].
  injection H as <-. cbn [confidence].
  pose proof (search_number response None) as Hs.
  unfold search in *.
  destruct (search_from false number_pattern None response) as [m|];
    cbn [option_map].
  - destruct Hs as [v Hv]. exists v. rewrite Hv.
    split; [reflexivity|]. split; [|reflexivity].
    now apply py_float_nonneg in Hv.
  - split; [exact Hs | reflexivity].
Qed.

Lemma X26_witness :
  exists v,
    py_float "0.75" = Some v /\ 0 <= v /\
    75 # 100 = (if Qltb 1 v then v / 100 else v).
Proof.
  pose proof (X26_numeral_always_read "Intent: query (0.75)"
                {| intent := "query"; confidence := 75 # 100 |}) as H.
  assert (E : search false number_pattern "Intent: query (0.75)" = Some "0.75")
    by (vm_compute; reflexivity).
  rewrite E in H. cbn [confidence] in H. apply H.
  vm_compute. reflexivity.
Defined.
End Numerals.
